(** * StudentHub: the record-review server and its live-update streams

    A shallow embedding of the Express server (the routes, the two JWT
    middlewares, the four [fetch...] snapshot helpers and the
    Server-Sent-Events handlers) and of the browser-side consumers (the
    [use...SSE] hooks and the admin requests page), with the properties
    of the snapshot, review and reconnection contracts. *)

From Stdlib Require Import ZArith QArith Ascii String List Sorting.Sorted Sorting.Permutation Lia.
From stdpp Require Import base option list strings pretty.
Import ListNotations.

Local Open Scope string_scope.
Local Open Scope Z_scope.

(** ** JavaScript string primitives used by the server *)

Module JS.

(** [!x] for a value that is either [undefined] or a string. *)
Definition truthy (o : option string) : bool :=
  match o with
  | Some s => negb (String.eqb s "")
  | None => false
  end.

(** [a ?? b]: the right operand only when the left one is nullish. *)
Definition nullish (a b : option string) : option string :=
  match a with
  | Some s => Some s
  | None => b
  end.

(** White space as [String.prototype.trim] sees it on ASCII text:
    TAB, LF, VT, FF, CR and SPACE. *)
Definition is_space (c : ascii) : bool :=
  let n := nat_of_ascii c in
  (Nat.leb 9 n && Nat.leb n 13) || Nat.eqb n 32.

Fixpoint trimStart (s : string) : string :=
  match s with
  | EmptyString => EmptyString
  | String c r => if is_space c then trimStart r else s
  end.

Fixpoint trimEnd (s : string) : string :=
  match s with
  | EmptyString => EmptyString
  | String c r =>
      let r' := trimEnd r in
      if is_space c && String.eqb r' "" then EmptyString else String c r'
  end.

Definition trim (s : string) : string := trimEnd (trimStart s).

Definition lower (c : ascii) : ascii :=
  let n := nat_of_ascii c in
  if Nat.leb 65 n && Nat.leb n 90 then ascii_of_nat (n + 32) else c.

Fixpoint toLowerCase (s : string) : string :=
  match s with
  | EmptyString => EmptyString
  | String c r => String (lower c) (toLowerCase r)
  end.

Definition startsWith (s p : string) : bool := String.prefix p s.

Fixpoint drop (n : nat) (s : string) : string :=
  match n, s with
  | O, _ => s
  | S n', String _ r => drop n' r
  | S _, EmptyString => EmptyString
  end.

(** [s.replace(pat, rep)] with a string pattern: the first occurrence only. *)
Fixpoint replace (pat rep s : string) : string :=
  if String.prefix pat s then rep +:+ drop (String.length pat) s
  else match s with
       | EmptyString => EmptyString
       | String c r => String c (replace pat rep r)
       end.

(** A value interpolated in a template literal. *)
Definition interpolate (o : option string) : string :=
  match o with
  | Some s => s
  | None => "undefined"
  end.

(** [Array.prototype.sort(cmp)]: stable, [a] stays before [b] when
    [cmp a b <= 0]. *)
Section Sort.
Context {A : Type} (cmp : A -> A -> Z).

Fixpoint insert_sorted (x : A) (l : list A) : list A :=
  match l with
  | [] => [x]
  | y :: l' => if cmp x y <=? 0 then x :: y :: l' else y :: insert_sorted x l'
  end.

Definition sort (l : list A) : list A := foldr insert_sorted [] l.
End Sort.

End JS.

(** ** Data model *)

Inductive Status := pending | accepted | rejected.

#[global] Instance Status_eq_dec : EqDecision Status.
Proof. solve_decision. Defined.

(** A document of one of the submission collections (Activities,
    Extracurriculam, Interned, Company, Skill), as [.lean()] returns it.
    A field the document does not carry is [None]; [createdAt] is the
    timestamp in milliseconds. *)
Module Doc.
Record t := mk {
  _id : string;
  sid : string;
  url : option string;
  status : Status;
  description : option string;
  createdAt : option Z;
  updatedAt : option Z;
  activities : option string;
  companyname : option string;
  duration : option string;
  companytype : option string;
  skillname : option string
}.

Definition with_url (u : option string) (d : t) : t :=
  mk (_id d) (sid d) u (status d) (description d) (createdAt d) (updatedAt d)
     (activities d) (companyname d) (duration d) (companytype d) (skillname d).

(** [{ $set: { status: s }, $unset: { description: '' } }] and
    [{ $set: { status: s, description: text } }].  [now] is the time
    with which the timestamps of the schema stamp the update, [None]
    for a schema without timestamps, which leaves [updatedAt] alone. *)
Definition review (s : Status) (desc : option string) (now : option Z) (d : t) : t :=
  mk (_id d) (sid d) (url d) s desc (createdAt d)
     (match now with Some t => Some t | None => updatedAt d end)
     (activities d) (companyname d) (duration d) (companytype d) (skillname d).
End Doc.

(** A semester record of the GPA collection. *)
Module Academic.
Record t := mk {
  _id : string;
  sid : string;
  gpa : Q;
  url : option string;
  sem : Z;
  createdAt : option Z;
  updatedAt : option Z
}.

Definition with_url (u : option string) (r : t) : t :=
  mk (_id r) (sid r) (gpa r) u (sem r) (createdAt r) (updatedAt r).
End Academic.

(** Student and Faculty rows as the middlewares load them (the password
    is excluded by [select]). *)
Module Student.
Record t := mk { _id : string; sid : string; sname : string; emailid : string;
                 degree : string; course : string }.
End Student.

Module Faculty.
Record t := mk { _id : string; facultyname : string; facultyid : string;
                 emailid : string }.
End Faculty.

(** The record store: one collection per mongoose model, in natural order. *)
Record Store := mkStore {
  Students : list Student.t;
  Faculties : list Faculty.t;
  GPA : list Academic.t;
  Activities : list Doc.t;
  Extracurriculam : list Doc.t;
  Interned : list Doc.t;
  Company : list Doc.t;
  Skill : list Doc.t
}.

(** A store observation: [None] when the store is unreachable and every
    query rejects. *)
Definition Db := option Store.

(** The payload of a decoded bearer token, as far as the middlewares read it. *)
Record Claims := mkClaims {
  studentId : option string;
  facultyId : option string;
  role : option string
}.

Inductive Model :=
  MStudent | MFaculty | MGPA | MActivities | MExtracurriculam | MInterned | MCompany | MSkill.

(** What the code takes from its platform: token verification, the
    WHATWG URL parser and [decodeURIComponent] ([None] when they throw),
    the PORT of the environment and the names under which the model
    files (not part of the sources at hand) registered the models. *)
Class Runtime := {
  jwt_verify : string -> option Claims;
  URL_pathname : string -> option string;
  decodeURIComponent : string -> option string;
  env_PORT : option string;
  modelNames : list (string * Model)
}.

(** ** Snapshot helpers *)

Record DocsSnapshot := mkDocs {
  docs_message : string;
  docs_totalCount : nat;
  docs_documents : list Doc.t
}.

Record AcademicsSnapshot := mkAcademics {
  ac_message : string;
  ac_sid : string;
  ac_count : nat;
  ac_records : list Academic.t
}.

Record PendingDocument := mkPending {
  pd_doc : Doc.t;
  documentType : string;
  title : option string;
  subtitle : option string
}.

(** The [breakdown] object of the admin payload: its keys, in the
    order of the object literal, with their counts. *)
Definition Breakdown := list (string * nat).

Record PendingSnapshot := mkPendingSnapshot {
  pend_message : string;
  pend_totalCount : nat;
  pend_breakdown : Breakdown;
  pend_documents : list PendingDocument
}.

(** [new Date(doc.createdAt || 0)] in milliseconds. *)
Definition created (d : Doc.t) : Z := default 0 (Doc.createdAt d).

(** [(a, b) => new Date(b.createdAt || 0) - new Date(a.createdAt || 0)] *)
Definition newest_first (a b : Doc.t) : Z := created b - created a.

Definition by_semester (a b : Academic.t) : Z := Academic.sem a - Academic.sem b.

Section Snapshots.
Context `{Runtime}.

(** [process.env.PORT || 5000] *)
Definition port : string :=
  match env_PORT with
  | Some p => if String.eqb p "" then "5000" else p
  | None => "5000"
  end.

(** [doc.url ? `http://localhost:${PORT}${doc.url}` : null] *)
Definition fullUrl (u : option string) : option string :=
  match u with
  | Some s => if String.eqb s "" then None else Some ("http://localhost:" +:+ port +:+ s)
  | None => None
  end.

(** A stored document as a snapshot shows it: its location made absolute. *)
Definition absolute (d : Doc.t) : Doc.t := Doc.with_url (fullUrl (Doc.url d)) d.

(** [GPA.find({ sid }).lean().sort({ sem: 1 })]: ascending semester;
    records of one semester stay in the order of the collection. *)
Definition fetchStudentAcademics (sid : string) (st : Store) : AcademicsSnapshot :=
  let academicRecords :=
    JS.sort by_semester (filter (fun r => Academic.sid r = sid) (GPA st)) in
  let recordsWithFullUrl :=
    map (fun r => Academic.with_url (fullUrl (Academic.url r)) r) academicRecords in
  mkAcademics "Academic records retrieved successfully" sid
              (length recordsWithFullUrl) recordsWithFullUrl.

Definition fetchStudentSkills (sid : string) (st : Store) : DocsSnapshot :=
  let skillsDocuments := filter (fun d => Doc.sid d = sid) (Skill st) in
  let documentsWithFullUrls :=
    JS.sort newest_first
      (map (fun d => Doc.with_url (fullUrl (Doc.url d)) d) skillsDocuments) in
  mkDocs "Skills documents retrieved successfully"
         (length documentsWithFullUrls) documentsWithFullUrls.

Definition fetchStudentCurricular (sid : string) (st : Store) : DocsSnapshot :=
  let curricularDocuments := filter (fun d => Doc.sid d = sid) (Activities st) in
  let documentsWithFullUrls :=
    JS.sort newest_first
      (map (fun d => Doc.with_url (fullUrl (Doc.url d)) d) curricularDocuments) in
  mkDocs "Curricular documents retrieved successfully"
         (length documentsWithFullUrls) documentsWithFullUrls.

(** [Model.find({ status: 'pending' })] *)
Definition is_pending (d : Doc.t) : Prop := Doc.status d = pending.

Definition fetchPendingDocuments (st : Store) : PendingSnapshot :=
  let pendingActivities := filter is_pending (Activities st) in
  let pendingInterns := filter is_pending (Interned st) in
  let pendingPlacements := filter is_pending (Company st) in
  let pendingSkills := filter is_pending (Skill st) in
  let activitiesWithType :=
    map (fun d => mkPending d "curriculam" (Doc.activities d) (Doc.description d))
        pendingActivities in
  let internsWithType :=
    map (fun d => mkPending d "internship" (Doc.companyname d)
                    (Some (JS.interpolate (Doc.duration d) +:+ " - "
                           +:+ JS.interpolate (Doc.companytype d))))
        pendingInterns in
  let placementsWithType :=
    map (fun d => mkPending d "placement" (Doc.companyname d) (Doc.companytype d))
        pendingPlacements in
  let skillsWithType :=
    map (fun d => mkPending d "skill" (Doc.skillname d) (Some "Skill Certificate"))
        pendingSkills in
  let allPendingDocuments :=
    (activitiesWithType ++ internsWithType ++ placementsWithType ++ skillsWithType)%list in
  let documentsWithFullUrls :=
    JS.sort (fun a b => newest_first (pd_doc a) (pd_doc b))
      (map (fun p => mkPending (Doc.with_url (fullUrl (Doc.url (pd_doc p))) (pd_doc p))
                       (documentType p) (title p) (subtitle p))
           allPendingDocuments) in
  mkPendingSnapshot "Pending documents retrieved successfully"
    (length documentsWithFullUrls)
    [ ("curriculam", length activitiesWithType);
      ("internships", length internsWithType);
      ("placements", length placementsWithType);
      ("skills", length skillsWithType) ]
    documentsWithFullUrls.

(** For the statements below: the pending documents of the four
    collections the admin query reads, each with the variant name the
    payload gives it. *)
Definition taggedPending (st : Store) : list (string * Doc.t) :=
  (map (fun d => ("curriculam", absolute d)) (filter is_pending (Activities st))
   ++ map (fun d => ("internship", absolute d)) (filter is_pending (Interned st))
   ++ map (fun d => ("placement", absolute d)) (filter is_pending (Company st))
   ++ map (fun d => ("skill", absolute d)) (filter is_pending (Skill st)))%list.

End Snapshots.

(** ** Subscriber sessions: the Server-Sent-Events handlers *)

Inductive Scope :=
| AdminPending
| StudentAcademics (sid : string)
| StudentSkills (sid : string)
| StudentCurricular (sid : string).

Inductive Payload :=
| PendingPayload (p : PendingSnapshot)
| AcademicsPayload (a : AcademicsSnapshot)
| DocsPayload (d : DocsSnapshot).

(** What a handler writes on the response, and what it leaves on the
    server console only. *)
Inductive Chunk :=
| Event (name : string) (data : Payload)
| ErrorEvent (error : string)
| Comment (text : string).

Inductive Effect :=
| Write (c : Chunk)
| ConsoleError (msg : string).

Record Session := mkSession {
  scope : Scope;
  pollInterval : bool;
  heartbeatInterval : bool;
  ended : bool
}.

(** What reaches a session after its handler has run: a firing of the
    poll timer, with the store as its query finds it, a firing of the
    heartbeat timer, the request's [close] and the response's [error].
    Each stands for a callback run to its end: a poll tick for a poll
    callback with the settling of its query, [ReqClose] and [ResError]
    for a run of the listener.  The listeners are registered at the
    end of the handler, behind the awaited initial query, so a [close]
    that the request emits before that reaches no listener and is no
    signal of the session.  A poll tick is one step: a listener that
    runs between the query of a poll and its write is outside this
    model. *)
Inductive Signal :=
| PollTick (db : Db)
| HeartbeatTick
| ReqClose
| ResError.

Definition eventName (sc : Scope) : string :=
  match sc with
  | AdminPending => "pending-documents"
  | StudentAcademics _ => "academics-update"
  | StudentSkills _ => "skills-update"
  | StudentCurricular _ => "curricular-update"
  end.

Definition initialFailure (sc : Scope) : string :=
  match sc with
  | AdminPending => "Failed to fetch initial data"
  | StudentAcademics _ => "Failed to fetch academic records"
  | StudentSkills _ => "Failed to fetch skills documents"
  | StudentCurricular _ => "Failed to fetch curricular documents"
  end.

Definition initialFailureLog (sc : Scope) : string :=
  match sc with
  | AdminPending => "Error fetching initial data:"
  | StudentAcademics _ => "Error fetching initial academics:"
  | StudentSkills _ => "Error fetching initial skills:"
  | StudentCurricular _ => "Error fetching initial curricular:"
  end.

Definition pollFailureLog (sc : Scope) : string :=
  match sc with
  | AdminPending => "Error polling pending documents:"
  | StudentAcademics _ => "Error polling academics:"
  | StudentSkills _ => "Error polling skills:"
  | StudentCurricular _ => "Error polling curricular:"
  end.

Definition streamErrorLog (sc : Scope) : string :=
  match sc with
  | AdminPending => "SSE error:"
  | StudentAcademics _ => "SSE academics error:"
  | StudentSkills _ => "SSE skills error:"
  | StudentCurricular _ => "SSE curricular error:"
  end.

Definition is_snapshot (c : Chunk) : bool :=
  match c with
  | Event _ _ => true
  | _ => false
  end.

Definition writes (out : list Effect) : list Chunk :=
  omap (fun e => match e with Write c => Some c | ConsoleError _ => None end) out.

Section Sessions.
Context `{Runtime}.

Definition snapshot (sc : Scope) (st : Store) : Payload :=
  match sc with
  | AdminPending => PendingPayload (fetchPendingDocuments st)
  | StudentAcademics sid => AcademicsPayload (fetchStudentAcademics sid st)
  | StudentSkills sid => DocsPayload (fetchStudentSkills sid st)
  | StudentCurricular sid => DocsPayload (fetchStudentCurricular sid st)
  end.

(** The body of a stream handler once the headers are flushed: the
    initial fetch in its own [try], then the two [setInterval] calls. *)
Definition openStream (sc : Scope) (db : Db) : Session * list Effect :=
  let initial :=
    match db with
    | Some st => [Write (Event (eventName sc) (snapshot sc st))]
    | None => [ConsoleError (initialFailureLog sc); Write (ErrorEvent (initialFailure sc))]
    end in
  (mkSession sc true true false, initial).

(** One callback of an opened session. *)
Definition step (s : Session) (sig : Signal) : Session * list Effect :=
  match sig with
  | PollTick db =>
      if pollInterval s then
        match db with
        | Some st => (s, [Write (Event (eventName (scope s)) (snapshot (scope s) st))])
        | None => (s, [ConsoleError (pollFailureLog (scope s))])
        end
      else (s, [])
  | HeartbeatTick =>
      if heartbeatInterval s then (s, [Write (Comment "heartbeat")]) else (s, [])
  | ReqClose => (mkSession (scope s) false false true, [])
  | ResError =>
      (mkSession (scope s) false false (ended s), [ConsoleError (streamErrorLog (scope s))])
  end.

Fixpoint run (s : Session) (sigs : list Signal) : Session * list Effect :=
  match sigs with
  | [] => (s, [])
  | sig :: rest =>
      let '(s1, out1) := step s sig in
      let '(s2, out2) := run s1 rest in
      (s2, (out1 ++ out2)%list)
  end.

(** A whole session: the handler, then the callbacks in arrival order. *)
Definition session (sc : Scope) (db : Db) (sigs : list Signal) : Session * list Effect :=
  let '(s0, out0) := openStream sc db in
  let '(s1, out1) := run s0 sigs in
  (s1, (out0 ++ out1)%list).

End Sessions.

(** ** Requests, responses and the two authentication middlewares *)

(** The JSON body of a review request: each field a string, as the
    requests page sends it, or absent. *)
Module Body.
Record t := mk {
  sid : option string;
  docurl : option string;
  docUrl : option string;
  url : option string;
  documentype : option string;
  documentType : option string;
  type : option string;
  description : option string
}.
Definition empty : t := mk None None None None None None None None.
End Body.

Record Request := mkRequest {
  header_Authorization : option string;
  query_token : option string;
  params_sid : string;
  body : Body.t
}.

(** [res.status(code).json({ error | message, ... })] *)
Record Response := Json {
  statusCode : nat;
  fields : list (string * string)
}.

Definition findById {A} (id_of : A -> string) (id : option string) (l : list A) : option A :=
  match id with
  | Some i => List.find (fun x => String.eqb (id_of x) i) l
  | None => None
  end.

Section Middleware.
Context `{Runtime}.

(** The token of a request: the Authorization header without its
    first ['Bearer '], else the [token] query parameter. *)
Definition bearerToken (req : Request) : option string :=
  let token := JS.replace "Bearer " "" <$> header_Authorization req in
  if negb (JS.truthy token) && JS.truthy (query_token req) then query_token req else token.

Definition authenticateStudent (req : Request) (db : Db) : Response + Student.t :=
  let token := bearerToken req in
  if negb (JS.truthy token) then
    inl (Json 401 [("error", "Access denied. No token provided.")])
  else
    match jwt_verify (default "" token), db with
    | Some decoded, Some st =>
        match findById Student._id (studentId decoded) (Students st) with
        | Some student => inr student
        | None => inl (Json 401 [("error", "Invalid token. Student not found.")])
        end
    | _, _ => inl (Json 401 [("error", "Invalid token.")])
    end.

Definition authenticateAdmin (req : Request) (db : Db) : Response + Faculty.t :=
  let token := bearerToken req in
  if negb (JS.truthy token) then
    inl (Json 401 [("error", "Access denied. No token provided.")])
  else
    match jwt_verify (default "" token) with
    | None => inl (Json 401 [("error", "Invalid token.")])
    | Some decoded =>
        if negb (bool_decide (role decoded = Some "admin")) then
          inl (Json 403 [("error", "Access denied. Admin privileges required.")])
        else
          match db with
          | None => inl (Json 401 [("error", "Invalid token.")])
          | Some st =>
              match findById Faculty._id (facultyId decoded) (Faculties st) with
              | Some faculty => inr faculty
              | None => inl (Json 401 [("error", "Invalid token. Faculty not found.")])
              end
          end
    end.

(** The outcome of a stream route: an ordinary JSON refusal, or an
    event stream with what the handler wrote while opening it. *)
Inductive StreamResult :=
| Refused (r : Response)
| Opened (s : Session) (out : list Effect).

Definition opened (r : Session * list Effect) : StreamResult := Opened (fst r) (snd r).

(** [app.get('/api/admin/pending-documents/stream', async (req, res) => ...)]:
    no middleware is mounted on this route. *)
Definition adminPendingStream (req : Request) (db : Db) : StreamResult :=
  opened (openStream AdminPending db).

(** [app.get('/api/student/academics/stream/:sid', authenticateStudent, ...)];
    [authDb] is the store as the middleware sees it, [db] as the
    initial fetch does. *)
Definition studentAcademicsStream (req : Request) (authDb db : Db) : StreamResult :=
  match authenticateStudent req authDb with
  | inl r => Refused r
  | inr student =>
      if negb (String.eqb (params_sid req) (Student.sid student)) then
        Refused (Json 403 [("error", "Access denied. Can only view your own academic records.")])
      else opened (openStream (StudentAcademics (params_sid req)) db)
  end.

Definition studentSkillsStream (req : Request) (authDb db : Db) : StreamResult :=
  match authenticateStudent req authDb with
  | inl r => Refused r
  | inr student => opened (openStream (StudentSkills (Student.sid student)) db)
  end.

Definition studentCurricularStream (req : Request) (authDb db : Db) : StreamResult :=
  match authenticateStudent req authDb with
  | inl r => Refused r
  | inr student => opened (openStream (StudentCurricular (Student.sid student)) db)
  end.

End Middleware.

(** ** Review actions: POST /api/skills/accept and /api/skills/reject *)

(** Modelled from the spec: the mongoose schemas (../models/*.js) are
    not among the sources.  A submission "carries owner student
    identifier, variant-specific fields, optional supporting-document
    reference, and a review status", and a rejection "a reviewer-supplied
    description"; the variant fields and those of the other models are
    the ones the routes write when they create a document. *)
Definition schema_path (m : Model) (p : string) : bool :=
  let common := ["sid"; "url"; "status"; "description"; "createdAt"; "updatedAt"] in
  match m with
  | MStudent => bool_decide (p ∈ ["sid"; "sname"; "emailid"; "password"; "degree"; "course"])
  | MFaculty => bool_decide (p ∈ ["facultyname"; "facultyid"; "emailid"; "pass"])
  | MGPA => bool_decide (p ∈ ["sid"; "gpa"; "url"; "sem"; "createdAt"; "updatedAt"])
  | MActivities | MExtracurriculam => bool_decide (p ∈ "activities" :: common)
  | MInterned => bool_decide (p ∈ "companyname" :: "duration" :: "companytype" :: common)
  | MCompany => bool_decide (p ∈ "companyname" :: "companytype" :: common)
  | MSkill => bool_decide (p ∈ "skillname" :: common)
  end.

(** The documents of a model that has a review status; the models
    without one are refused before their collection is touched. *)
Definition documents (m : Model) (st : Store) : list Doc.t :=
  match m with
  | MActivities => Activities st
  | MExtracurriculam => Extracurriculam st
  | MInterned => Interned st
  | MCompany => Company st
  | MSkill => Skill st
  | MStudent | MFaculty | MGPA => []
  end.

Definition setDocuments (m : Model) (l : list Doc.t) (st : Store) : Store :=
  match m with
  | MActivities =>
      mkStore (Students st) (Faculties st) (GPA st) l (Extracurriculam st) (Interned st) (Company st) (Skill st)
  | MExtracurriculam =>
      mkStore (Students st) (Faculties st) (GPA st) (Activities st) l (Interned st) (Company st) (Skill st)
  | MInterned =>
      mkStore (Students st) (Faculties st) (GPA st) (Activities st) (Extracurriculam st) l (Company st) (Skill st)
  | MCompany =>
      mkStore (Students st) (Faculties st) (GPA st) (Activities st) (Extracurriculam st) (Interned st) l (Skill st)
  | MSkill =>
      mkStore (Students st) (Faculties st) (GPA st) (Activities st) (Extracurriculam st) (Interned st) (Company st) l
  | MStudent | MFaculty | MGPA => st
  end.

(** The value of a string field of a submission document by name; the
    documents carry their location under [url] only. *)
Definition docField (f : string) (d : Doc.t) : option string :=
  if String.eqb f "url" then Doc.url d else None.

(** [Model.findOneAndUpdate(filter, update)]: the first document in
    natural order that passes the filter is replaced by its update. *)
Fixpoint findOneAndUpdate (P : Doc.t -> bool) (f : Doc.t -> Doc.t) (l : list Doc.t)
  : option (Doc.t * list Doc.t) :=
  match l with
  | [] => None
  | d :: r =>
      if P d then Some (f d, f d :: r)
      else match findOneAndUpdate P f r with
           | Some (u, r') => Some (u, d :: r')
           | None => None
           end
  end.

Definition modelByType : list (string * Model) :=
  [ ("skill", MSkill); ("skills", MSkill);
    ("curricular", MActivities); ("curriculam", MActivities);
    ("curriculum", MActivities); ("activities", MActivities);
    ("intern", MInterned); ("inters", MInterned);
    ("interned", MInterned); ("internship", MInterned);
    ("placed", MCompany); ("company", MCompany); ("placement", MCompany) ].

Definition urlFieldCandidates : list string :=
  ["url"; "docurl"; "docUrl"; "documentUrl"; "documenturl"].

Definition assoc {A} (k : string) (l : list (string * A)) : option A :=
  snd <$> List.find (fun kv => String.eqb (fst kv) k) l.

(** What [resolveModel] can return besides [null]: a model, or, for the
    two lower-case keys every object literal inherits, a member of
    [Object.prototype], which has no schema. *)
Inductive Resolved :=
| IsModel (m : Model)
| Inherited.

Definition resolvedPath (r : Resolved) (p : string) : bool :=
  match r with
  | IsModel m => schema_path m p
  | Inherited => false
  end.

Definition filterBy (sid urlField docurl : string) (d : Doc.t) : bool :=
  String.eqb (Doc.sid d) sid && bool_decide (docField urlField d = Some docurl).

(** [req.body.docurl ?? req.body.docUrl ?? req.body.url] *)
Definition docurlRaw (b : Body.t) : option string :=
  JS.nullish (Body.docurl b) (JS.nullish (Body.docUrl b) (Body.url b)).

(** [req.body.documentype ?? req.body.documentType ?? req.body.type] *)
Definition documentypeRaw (b : Body.t) : option string :=
  JS.nullish (Body.documentype b) (JS.nullish (Body.documentType b) (Body.type b)).

Section Review.
Context `{Runtime}.

Definition normalizeDocUrl (value : string) : string :=
  if String.eqb value "" then value
  else
    let str := JS.trim value in
    match URL_pathname str ≫= decodeURIComponent with
    | Some decoded => decoded
    | None =>
        match decodeURIComponent str with
        | Some decoded => decoded
        | None => str
        end
    end.

Definition resolveModel (type : string) : option Resolved :=
  match assoc type modelByType with
  | Some m => Some (IsModel m)
  | None =>
      if String.eqb type "constructor" || String.eqb type "__proto__" then Some Inherited
      else
        match List.find (fun nm => String.eqb (JS.toLowerCase (fst nm)) type) modelNames with
        | Some (_, m) => Some (IsModel m)
        | None => None
        end
  end.

(** The location a review request addresses: normalised, then made
    to begin with a slash. *)
Definition docurlOf (docurlRaw : string) : string :=
  let docurl := normalizeDocUrl docurlRaw in
  if negb (String.eqb docurl "") && negb (JS.startsWith docurl "/") then "/" +:+ docurl
  else docurl.

Definition acceptDocument (now : option Z) (b : Body.t) (db : Db) : Response * Db :=
  let sid := Body.sid b in
  let docurlRaw := docurlRaw b in
  let documentypeRaw := documentypeRaw b in
  if negb (JS.truthy sid) || negb (JS.truthy docurlRaw) || negb (JS.truthy documentypeRaw) then
    (Json 400 [("error", "Missing required fields: sid, docurl, documentype")], db)
  else
    let docurl := docurlOf (default "" docurlRaw) in
    let documentype := JS.toLowerCase (JS.trim (default "" documentypeRaw)) in
    match resolveModel documentype with
    | None =>
        (Json 400 [("error", "Invalid documentype (unknown model)");
                   ("hint", "Use a known alias (skills/curriculam/inters/placed) or a Mongoose model name")],
         db)
    | Some r =>
        if negb (resolvedPath r "status") then
          (Json 400 [("error", "Selected documentype/model does not support status updates")], db)
        else if negb (resolvedPath r "sid") then
          (Json 400 [("error", "Selected documentype/model does not have sid field")], db)
        else
          match List.find (resolvedPath r) urlFieldCandidates, r with
          | Some urlField, IsModel m =>
              match db with
              | None => (Json 500 [("error", "Internal server error")], db)
              | Some st =>
                  match findOneAndUpdate (filterBy (default "" sid) urlField docurl)
                          (Doc.review accepted None now) (documents m st) with
                  | None =>
                      (Json 404 [("error", "Document not found for given sid and docurl")], db)
                  | Some (_, l') =>
                      (Json 200 [("message", "successfully accepted")],
                       Some (setDocuments m l' st))
                  end
              end
          | _, _ =>
              (Json 400 [("error", "Selected documentype/model does not have a url field to match docurl")],
               db)
          end
    end.

Definition rejectDocument (now : option Z) (b : Body.t) (db : Db) : Response * Db :=
  let sid := Body.sid b in
  let docurlRaw := docurlRaw b in
  let documentypeRaw := documentypeRaw b in
  let description := Body.description b in
  if negb (JS.truthy sid) || negb (JS.truthy docurlRaw) || negb (JS.truthy documentypeRaw)
     || negb (JS.truthy description) then
    (Json 400 [("error", "Missing required fields: sid, url (or docurl), documentType, description")],
     db)
  else
    let docurl := docurlOf (default "" docurlRaw) in
    let documentype := JS.toLowerCase (JS.trim (default "" documentypeRaw)) in
    match resolveModel documentype with
    | None =>
        (Json 400 [("error", "Invalid documentType (unknown model)");
                   ("hint", "Use a known alias (skill/curriculam/internship/placement) or a Mongoose model name")],
         db)
    | Some r =>
        if negb (resolvedPath r "status") then
          (Json 400 [("error", "Selected documentType/model does not support status updates")], db)
        else if negb (resolvedPath r "description") then
          (Json 400 [("error", "Selected documentType/model does not support rejection description")], db)
        else if negb (resolvedPath r "sid") then
          (Json 400 [("error", "Selected documentType/model does not have sid field")], db)
        else
          match List.find (resolvedPath r) urlFieldCandidates, r with
          | Some urlField, IsModel m =>
              match db with
              | None => (Json 500 [("error", "Internal server error")], db)
              | Some st =>
                  match findOneAndUpdate (filterBy (default "" sid) urlField docurl)
                          (Doc.review rejected description now) (documents m st) with
                  | None =>
                      (Json 404 [("error", "Document not found for given sid and url")], db)
                  | Some (updated, l') =>
                      (Json 200 [("message", "successfully rejected");
                                 ("description", default "" (Doc.description updated))],
                       Some (setDocuments m l' st))
                  end
              end
          | _, _ =>
              (Json 400 [("error", "Selected documentType/model does not have a url field to match url")],
               db)
          end
    end.

(** The two routes, behind [authenticateAdmin]; [authDb] is the
    store as the middleware sees it, [db] as the handler does, and
    [now] the time of the update. *)
Definition postSkillsAccept (now : option Z) (req : Request) (authDb db : Db) : Response * Db :=
  match authenticateAdmin req authDb with
  | inl r => (r, db)
  | inr _ => acceptDocument now (body req) db
  end.

Definition postSkillsReject (now : option Z) (req : Request) (authDb db : Db) : Response * Db :=
  match authenticateAdmin req authDb with
  | inl r => (r, db)
  | inr _ => rejectDocument now (body req) db
  end.

End Review.

(** ** Browser side: the stream consumers *)

Inductive ReadyState := CONNECTING | OPEN | CLOSED.

#[global] Instance ReadyState_eq_dec : EqDecision ReadyState.
Proof. solve_decision. Defined.

(** The three hooks [useSkillsSSE], [useAcademicsSSE] and
    [useCurricularSSE] differ in their texts and in the enabling
    condition only. *)
Inductive Hook := SkillsHook | AcademicsHook | CurricularHook.

Definition parseFailure (h : Hook) : string :=
  match h with
  | SkillsHook => "Failed to parse skills data"
  | AcademicsHook => "Failed to parse academic data"
  | CurricularHook => "Failed to parse curricular data"
  end.

Module HookState.
Record t (A : Type) := mk {
  items : list A;
  loading : bool;
  error : option string;
  isConnected : bool;
  eventSource : option ReadyState
}.
Arguments mk {A}.
Arguments items {A}.
Arguments loading {A}.
Arguments error {A}.
Arguments isConnected {A}.
Arguments eventSource {A}.

(** The [useState] initial values. *)
Definition initial {A} : t A := mk [] true None false None.
End HookState.

Section Hooks.
Context {A : Type}.
Local Abbreviation state := (HookState.t A).

(** [setupSSE]: [enabled] already includes, for the academics hook,
    that the student identifier is known. *)
Definition setupSSE (enabled : bool) (token : option string) (s : state) : state :=
  if negb enabled then
    HookState.mk (HookState.items s) false (HookState.error s) (HookState.isConnected s) None
  else if negb (JS.truthy token) then
    HookState.mk (HookState.items s) false
      (Some "Authentication token not found. Please log in again.")
      (HookState.isConnected s) None
  else
    HookState.mk (HookState.items s) true None (HookState.isConnected s) (Some CONNECTING).

(** The named data event; [None] is a payload [JSON.parse] rejects. *)
Definition onUpdate (h : Hook) (data : option (list A)) (s : state) : state :=
  match data with
  | Some docs => HookState.mk docs false (HookState.error s) true (HookState.eventSource s)
  | None =>
      HookState.mk (HookState.items s) (HookState.loading s) (Some (parseFailure h))
        (HookState.isConnected s) (HookState.eventSource s)
  end.

(** The listener added for ['error'] and the [onerror] handler, which
    both run, in this order, when the transport reports an error. *)
Definition errorListener (s : state) : state :=
  HookState.mk (HookState.items s) (HookState.loading s)
    (Some "Connection lost. Retrying...") false (Some CLOSED).

Definition onerrorHandler (s : state) : state :=
  HookState.mk (HookState.items s) (HookState.loading s)
    (Some "Failed to connect to real-time updates") false (Some CLOSED).

Definition hookTransportError (rs : ReadyState) (s : state) : state :=
  let s0 := HookState.mk (HookState.items s) (HookState.loading s) (HookState.error s)
              (HookState.isConnected s) (Some rs) in
  onerrorHandler (errorListener s0).

Definition hookCleanup (s : state) : state :=
  HookState.mk (HookState.items s) (HookState.loading s) (HookState.error s)
    (HookState.isConnected s) (Some CLOSED).
End Hooks.

(** The admin requests page. *)
Record Toast := mkToast { toast_title : string; toast_description : string }.

Module Page.
Record t := mk {
  documents : list PendingDocument;
  totalCount : nat;
  loading : bool;
  isLiveConnected : bool;
  eventSource : option ReadyState;
  reconnectTimers : nat;
  previousCount : nat;
  toasts : list Toast
}.

Definition initial : t := mk [] 0 true false None 0 0 [].
End Page.

Definition connectSSE (p : Page.t) : Page.t :=
  Page.mk (Page.documents p) (Page.totalCount p) (Page.loading p) (Page.isLiveConnected p)
    (Some CONNECTING) (Page.reconnectTimers p) (Page.previousCount p) (Page.toasts p).

Definition pageMount (adminToken : option string) (p : Page.t) : Page.t :=
  if negb (JS.truthy adminToken) then p else connectSSE p.

Definition pageOnopen (p : Page.t) : Page.t :=
  Page.mk (Page.documents p) (Page.totalCount p) (Page.loading p) true
    (Some OPEN) (Page.reconnectTimers p) (Page.previousCount p) (Page.toasts p).

(** [eventSource.onerror]: the transport has left the source in state
    [rs]; the handler sets two flags and starts a five-second timer. *)
Definition pageOnerror (rs : ReadyState) (p : Page.t) : Page.t :=
  Page.mk (Page.documents p) (Page.totalCount p) false false
    (Some rs) (S (Page.reconnectTimers p)) (Page.previousCount p) (Page.toasts p).

(** The timer callback: reconnect only when the source is closed. *)
Definition pageReconnectTimer (p : Page.t) : Page.t :=
  let p' := Page.mk (Page.documents p) (Page.totalCount p) (Page.loading p)
              (Page.isLiveConnected p) (Page.eventSource p)
              (Nat.pred (Page.reconnectTimers p)) (Page.previousCount p) (Page.toasts p) in
  if bool_decide (Page.eventSource p = Some CLOSED) then connectSSE p' else p'.

(** What [handleRequestAction] does before it awaits the server. *)
Inductive UIEffect :=
| ShowToast (t : Toast)
| Navigate (path : string)
| Post (path : string) (bearer : string) (b : Body.t).

Definition handleRequestAction (adminToken : option string) (busy : bool)
    (doc : PendingDocument) (newStatus : Status) (prompt : option string) : list UIEffect :=
  if negb (JS.truthy adminToken) then
    [ShowToast (mkToast "Authentication Required" "Please login as admin to perform this action");
     Navigate "/admin/login"]
  else
    let bodyOf desc :=
      Body.mk (Some (Doc.sid (pd_doc doc))) None None (Doc.url (pd_doc doc)) None
              (Some (documentType doc)) None desc in
    if bool_decide (newStatus = rejected) then
      match prompt with
      | None => []
      | Some reason =>
          if String.eqb (JS.trim reason) "" then
            [ShowToast (mkToast "Description required" "Please enter a rejection description.")]
          else if busy then []
          else [Post "/api/skills/reject" (default "" adminToken) (bodyOf (Some (JS.trim reason)))]
      end
    else if busy then []
    else [Post "/api/skills/accept" (default "" adminToken) (bodyOf None)].

(** The contract the spec calls the Client Reconnector, as an interface
    over the consumers' states. *)
Class Reconnector (S : Type) := {
  transportError : ReadyState -> S -> S;
  isLive : S -> bool;
  surfacedError : S -> option string;
  connection : S -> option ReadyState;
  retryTimers : S -> nat
}.

#[global] Instance hook_reconnector {A} : Reconnector (HookState.t A) := {
  transportError := hookTransportError;
  isLive := HookState.isConnected;
  surfacedError := HookState.error;
  connection := HookState.eventSource;
  retryTimers := fun _ => 0%nat
}.

(** The page keeps no error state: its handler only logs to the console. *)
#[global] Instance page_reconnector : Reconnector Page.t := {
  transportError := pageOnerror;
  isLive := Page.isLiveConnected;
  surfacedError := fun _ => None;
  connection := Page.eventSource;
  retryTimers := Page.reconnectTimers
}.

(** ** A concrete deployment, for the examples *)

Module Demo.

Definition origin : string := "http://localhost:5000".

(** A path-only stand-in for the URL parser: the origin of an absolute
    location is dropped and a relative one is made to start with a slash. *)
Definition pathname (s : string) : option string :=
  if String.prefix origin s then Some (JS.drop (String.length origin) s)
  else if String.prefix "/" s then Some s
  else Some ("/" +:+ s).

Definition verify (token : string) : option Claims :=
  if String.eqb token "tok-A" then Some (mkClaims (Some "ida") None None)
  else if String.eqb token "tok-B" then Some (mkClaims (Some "idb") None None)
  else if String.eqb token "tok-admin" then Some (mkClaims None (Some "f1") (Some "admin"))
  else None.

Definition node : Runtime := {|
  jwt_verify := verify;
  URL_pathname := pathname;
  decodeURIComponent := Some;
  env_PORT := None;
  modelNames :=
    [ ("Student", MStudent); ("Faculty", MFaculty); ("GPA", MGPA);
      ("Activities", MActivities); ("Extracurriculam", MExtracurriculam);
      ("Interned", MInterned); ("Company", MCompany); ("Skill", MSkill) ]
|}.

Definition studentA : Student.t := Student.mk "ida" "S001" "A" "a@campus.example" "BTech" "CSE".
Definition studentB : Student.t := Student.mk "idb" "S002" "B" "b@campus.example" "BTech" "ECE".
Definition teacher : Faculty.t := Faculty.mk "f1" "T" "F100" "t@campus.example".

Definition skillDoc (id sid : string) (s : Status) (t : Z) : Doc.t :=
  Doc.mk id sid (Some ("/uploads/" +:+ id +:+ ".pdf")) s None (Some t) (Some t)
         None None None None (Some "Python").

Definition activityDoc (id sid : string) (s : Status) (t : Z) : Doc.t :=
  Doc.mk id sid None s (Some "annual meet") (Some t) (Some t)
         (Some "Debate") None None None None.

Definition semester (id : string) (n t : Z) : Academic.t :=
  Academic.mk id "S001" (17 # 2) (Some ("/uploads/" +:+ id +:+ ".pdf")) n (Some t) (Some t).

Definition people (gpa : list Academic.t) (act ext int com ski : list Doc.t) : Store :=
  mkStore [studentA; studentB] [teacher] gpa act ext int com ski.

(** One pending skill certificate of student S001, and an accepted one. *)
Definition store : Store :=
  people [] [] [] [] [] [skillDoc "k0" "S002" accepted 50; skillDoc "k1" "S001" pending 100].

(** A store whose only submission is a pending extracurricular activity. *)
Definition extracurricularOnly : Store :=
  people [] [] [activityDoc "e1" "S001" pending 100] [] [] [].

(** Semester 1 was uploaded before semester 2. *)
Definition twoSemesters : Store :=
  people [semester "g1" 1 100; semester "g2" 2 200] [] [] [] [] [].

Definition adminRequest (b : Body.t) : Request :=
  mkRequest (Some "Bearer tok-admin") None "" b.

Definition anonymous : Request := mkRequest None None "" Body.empty.

(** Student S001, with the token in the query string as [EventSource]
    sends it, asking for the academics stream of S002. *)
Definition crossRequest : Request := mkRequest None (Some "tok-A") "S002" Body.empty.

(** What the requests page posts for the pending certificate [k1]. *)
Definition reviewBody (desc : option string) : Body.t :=
  Body.mk (Some "S001") None None (Some "http://localhost:5000/uploads/k1.pdf")
          None (Some "skill") None desc.

(** The admin's reject request for [k1], and the store it should leave. *)
Definition rejectRequest (reason : string) : Request := adminRequest (reviewBody (Some reason)).

Definition reviewed (s : Status) (desc : option string) (now : option Z) : Store :=
  people [] [] [] [] []
    [skillDoc "k0" "S002" accepted 50; Doc.review s desc now (skillDoc "k1" "S001" pending 100)].

(** The page, connected and live. *)
Definition livePage : Page.t := pageOnopen (pageMount (Some "tok-admin") Page.initial).

End Demo.

(** ** Document submission, uploads and the list routes *)

(** A file part of a multipart request as multer meets it: its MIME
    type, whether it exceeds the configured size limit, and the name
    the [filename] callback of the disk storage gives it. *)
Module Upload.
Record t := mk {
  mimetype : string;
  tooLarge : bool;
  filename : string
}.
End Upload.

(** [fileFilter]: PDF only. *)
Definition fileFilter (f : Upload.t) : bool :=
  String.eqb (Upload.mimetype f) "application/pdf".

(** [upload.single('pdfFile')] over the files of the uploads directory:
    [None] when the filter or the size limit raises an error, else
    [req.file] (its stored name) and the directory afterwards. *)
Definition uploadSingle (f : option Upload.t) (disk : list string)
  : option (option string * list string) :=
  match f with
  | None => Some (None, disk)
  | Some u =>
      if negb (fileFilter u) || Upload.tooLarge u then None
      else Some (Some (Upload.filename u), Upload.filename u :: disk)
  end.

(** The error-handling middleware at the end of the chain. *)
Definition errorMiddleware : Response := Json 500 [("error", "Something went wrong!")].

(** [if (fs.existsSync(filePath)) fs.unlinkSync(filePath)] for [req.file]. *)
Definition unlinkUpload (file : option string) (disk : list string) : list string :=
  match file with
  | Some name => List.filter (fun n => negb (String.eqb n name)) disk
  | None => disk
  end.

(** The text fields of a submit-document request. *)
Module Form.
Record t := mk {
  key : option string;
  activities : option string;
  description : option string;
  companyname : option string;
  duration : option string;
  companytype : option string;
  skillname : option string
}.
End Form.

Definition schemaMap : list (string * Model) :=
  [ ("curriculam", MActivities); ("extracurriculam", MExtracurriculam);
    ("internship", MInterned); ("placement", MCompany); ("skill", MSkill) ].

(** The keys every object literal inherits from [Object.prototype];
    [schemaMap[key]] is truthy for them too. *)
Definition objectPrototypeKeys : list string :=
  [ "constructor"; "__defineGetter__"; "__defineSetter__"; "hasOwnProperty";
    "__lookupGetter__"; "__lookupSetter__"; "isPrototypeOf"; "propertyIsEnumerable";
    "toString"; "valueOf"; "__proto__"; "toLocaleString" ].

Inductive SubmitResult :=
| SubmitRefused (r : Response)
| Submitted (message documentType : string) (document : Doc.t) (fileName : option string).

(** The [switch (key)] of the route: the refusal, or the fields the
    document gets besides owner, status and location. *)
Definition documentFields (key : string) (b : Form.t) (file : option string)
  : Response + (Doc.t -> Doc.t) :=
  let refuse msg := inl (Json 400 [("error", msg)]) in
  let knownType :=
    bool_decide (Form.companytype b = Some "government")
    || bool_decide (Form.companytype b = Some "private") in
  let hasFile := match file with Some _ => true | None => false end in
  let set (f : Doc.t -> Doc.t) : Response + (Doc.t -> Doc.t) := inr f in
  if String.eqb key "curriculam" then
    if negb (JS.truthy (Form.activities b)) || negb (JS.truthy (Form.description b)) then
      refuse "Missing required fields for curriculam: activities, description"
    else
      set (fun d => Doc.mk (Doc._id d) (Doc.sid d) (Doc.url d) (Doc.status d)
                      (Form.description b) (Doc.createdAt d) (Doc.updatedAt d)
                      (Form.activities b)
                      None None None None)
  else if String.eqb key "extracurriculam" then
    if negb (JS.truthy (Form.activities b)) || negb (JS.truthy (Form.description b)) then
      refuse "Missing required fields for extracurriculam: activities, description"
    else
      set (fun d => Doc.mk (Doc._id d) (Doc.sid d) (Doc.url d) (Doc.status d)
                      (Form.description b) (Doc.createdAt d) (Doc.updatedAt d)
                      (Form.activities b)
                      None None None None)
  else if String.eqb key "internship" then
    if negb (JS.truthy (Form.companyname b)) || negb (JS.truthy (Form.duration b))
       || negb (JS.truthy (Form.companytype b)) then
      refuse "Missing required fields for internship: companyname, duration, companytype"
    else if negb knownType then refuse "Company type must be either government or private"
    else if negb hasFile then refuse "PDF file is required for internship documents"
    else
      set (fun d => Doc.mk (Doc._id d) (Doc.sid d) (Doc.url d) (Doc.status d)
                      None (Doc.createdAt d) (Doc.updatedAt d) None
                      (Form.companyname b) (Form.duration b) (Form.companytype b) None)
  else if String.eqb key "placement" then
    if negb (JS.truthy (Form.companyname b)) || negb (JS.truthy (Form.companytype b)) then
      refuse "Missing required fields for placement: companyname, companytype"
    else if negb knownType then refuse "Company type must be either government or private"
    else if negb hasFile then refuse "PDF file is required for placement documents"
    else
      set (fun d => Doc.mk (Doc._id d) (Doc.sid d) (Doc.url d) (Doc.status d)
                      None (Doc.createdAt d) (Doc.updatedAt d) None
                      (Form.companyname b) None (Form.companytype b) None)
  else if String.eqb key "skill" then
    if negb (JS.truthy (Form.skillname b)) then
      refuse "Missing required field for skill: skillname"
    else if negb hasFile then refuse "PDF file is required for skill documents"
    else
      set (fun d => Doc.mk (Doc._id d) (Doc.sid d) (Doc.url d) (Doc.status d)
                      None (Doc.createdAt d) (Doc.updatedAt d)
                      None None None None (Form.skillname b))
  else refuse "Invalid document key".

(** The handler of POST /api/student/submit-document, for the student
    of the token.  [newId] and [stamp] are the [_id] and the time, as
    [createdAt] and [updatedAt], the store gives the saved document
    ([stamp] is [None] for a schema without timestamps); the result
    comes with the store and the uploads directory afterwards. *)
Definition submitDocument (student : Student.t) (b : Form.t) (file : option string)
    (newId : string) (stamp : option Z) (db : Db) (disk : list string)
  : SubmitResult * Db * list string :=
  match Form.key b with
  | None => (SubmitRefused (Json 400 [("error", "Document key is required")]), db, disk)
  | Some key =>
      if String.eqb key "" then
        (SubmitRefused (Json 400 [("error", "Document key is required")]), db, disk)
      else
        let documentModel :=
          match assoc key schemaMap with
          | Some m => Some (IsModel m)
          | None => if bool_decide (key ∈ objectPrototypeKeys) then Some Inherited else None
          end in
        match documentModel with
        | None =>
            (SubmitRefused
               (Json 400 [("error", "Invalid document key. Allowed values: curriculam, extracurriculam, internship, placement, skill")]),
             db, disk)
        | Some r =>
            let documentToSave :=
              Doc.mk newId (Student.sid student)
                     (match file with Some name => Some ("/uploads/" +:+ name) | None => None end)
                     pending None stamp stamp None None None None None in
            match documentFields key b file, r, db with
            | inl refusal, _, _ => (SubmitRefused refusal, db, disk)
            | inr fill, IsModel m, Some st =>
                let saved := fill documentToSave in
                (Submitted (key +:+ " document submitted successfully") key saved file,
                 Some (setDocuments m (documents m st ++ [saved])%list st), disk)
            | inr _, _, _ =>
                (SubmitRefused (Json 500 [("error", "Failed to submit document")]),
                 db, unlinkUpload file disk)
            end
        end
  end.

Section SubmitRoute.
Context `{Runtime}.

(** [app.post('/api/student/submit-document', authenticateStudent,
    upload.single('pdfFile'), ...)]. *)
Definition postSubmitDocument (req : Request) (b : Form.t) (f : option Upload.t)
    (newId : string) (stamp : option Z) (authDb db : Db) (disk : list string)
  : SubmitResult * Db * list string :=
  match authenticateStudent req authDb with
  | inl r => (SubmitRefused r, db, disk)
  | inr student =>
      match uploadSingle f disk with
      | None => (SubmitRefused errorMiddleware, db, disk)
      | Some (file, disk') => submitDocument student b file newId stamp db disk'
      end
  end.

(** The body the five student list routes share: the caller's
    documents of one collection, locations made absolute, newest first. *)
Definition ownDocuments (sid : string) (l : list Doc.t) : list Doc.t :=
  JS.sort newest_first
    (map (fun d => Doc.with_url (fullUrl (Doc.url d)) d) (filter (fun d => Doc.sid d = sid) l)).

Inductive ListRoute := Internships | ExtracurricularList | Placements | SkillsList | CurricularList.

Definition listModel (r : ListRoute) : Model :=
  match r with
  | Internships => MInterned
  | ExtracurricularList => MExtracurriculam
  | Placements => MCompany
  | SkillsList => MSkill
  | CurricularList => MActivities
  end.

Definition listName (r : ListRoute) : string * string :=
  match r with
  | Internships => ("Internship", "internship")
  | ExtracurricularList => ("Extracurricular", "extracurricular")
  | Placements => ("Placement", "placement")
  | SkillsList => ("Skills", "skills")
  | CurricularList => ("Curricular", "curricular")
  end.

(** GET /api/student/internships, /extracurricular, /placements,
    /skills and /curricular; [authDb] is the store as the middleware
    sees it, [db] as the query of the handler does. *)
Definition getStudentDocuments (r : ListRoute) (req : Request) (authDb db : Db)
  : Response + DocsSnapshot :=
  match authenticateStudent req authDb with
  | inl refusal => inl refusal
  | inr student =>
      match db with
      | Some st =>
          let documentsWithFullUrls := ownDocuments (Student.sid student) (documents (listModel r) st) in
          inr (mkDocs (fst (listName r) +:+ " documents retrieved successfully")
                      (length documentsWithFullUrls) documentsWithFullUrls)
      | None =>
          inl (Json 500 [("error", "Failed to retrieve " +:+ snd (listName r) +:+ " documents")])
      end
  end.

End SubmitRoute.

(** ** Academic records: upload and retrieval *)

(** [parseInt(s)] without a radix: leading white space, an optional
    sign, an optional [0x] prefix, then the longest run of digits;
    [None] is [NaN]. *)
Definition digitValue (c : ascii) : option Z :=
  let n := nat_of_ascii c in
  if Nat.leb 48 n && Nat.leb n 57 then Some (Z.of_nat n - 48)
  else if Nat.leb 97 n && Nat.leb n 102 then Some (Z.of_nat n - 87)
  else if Nat.leb 65 n && Nat.leb n 70 then Some (Z.of_nat n - 55)
  else None.

Fixpoint digitRun (radix : Z) (s : string) (acc : option Z) : option Z :=
  match s with
  | EmptyString => acc
  | String c r =>
      match digitValue c with
      | Some v => if v <? radix then digitRun radix r (Some (default 0 acc * radix + v)) else acc
      | None => acc
      end
  end.

Definition parseInt (s : string) : option Z :=
  let s1 := JS.trimStart s in
  let '(sign, s2) :=
    match s1 with
    | String "-" r => (-1, r)
    | String "+" r => (1, r)
    | _ => (1, s1)
    end in
  let '(radix, s3) :=
    if String.prefix "0x" s2 || String.prefix "0X" s2 then (16, JS.drop 2 s2) else (10, s2) in
  Z.mul sign <$> digitRun radix s3 None.

(** The text fields of an academics upload. *)
Module Marks.
Record t := mk {
  sid : option string;
  gpa : option string;
  sem : option string
}.
End Marks.

Inductive UploadResult :=
| UploadRefused (r : Response)
| Uploaded (record : Academic.t) (fileName : string).

Section AcademicsRoutes.
Context `{Runtime}.

(** [parseFloat], of the platform; [None] is [NaN]. *)
Variable parseFloat : string -> option Q.

(** The handler of POST /api/academics.  A record whose semester or
    GPA is [NaN] does not pass the store's cast to a number: saving it
    throws like an unreachable store does.  [newId] and [stamp] are the
    [_id] and the time, as [createdAt] and [updatedAt], the store gives
    the saved record. *)
Definition uploadAcademics (b : Marks.t) (file : option string)
    (newId : string) (stamp : option Z) (db : Db) (disk : list string)
  : UploadResult * Db * list string :=
  if negb (JS.truthy (Marks.sid b)) || negb (JS.truthy (Marks.gpa b))
     || negb (JS.truthy (Marks.sem b)) then
    (UploadRefused
       (Json 400 [("error", "Missing required fields: sid (student ID), gpa, sem (semester)")]),
     db, disk)
  else
    match file with
    | None => (UploadRefused (Json 400 [("error", "PDF file is required")]), db, disk)
    | Some name =>
        let semesterNum := parseInt (default "" (Marks.sem b)) in
        let outOfRange :=
          match semesterNum with
          | Some n => (n <? 1) || (8 <? n)
          | None => false
          end in
        if outOfRange then
          (UploadRefused (Json 400 [("error", "Semester must be between 1 and 8")]), db, disk)
        else
          let failed :=
            (UploadRefused (Json 500 [("error", "Failed to create academic record")]),
             db, unlinkUpload file disk) in
          match db with
          | None => failed
          | Some st =>
              match List.find (fun s => String.eqb (Student.sid s) (default "" (Marks.sid b)))
                      (Students st) with
              | None =>
                  (UploadRefused (Json 404 [("error", "Student not found with this student ID")]),
                   db, disk)
              | Some _ =>
                  match semesterNum, parseFloat (default "" (Marks.gpa b)) with
                  | Some n, Some g =>
                      let savedRecord :=
                        Academic.mk newId (default "" (Marks.sid b)) g
                                    (Some ("/uploads/" +:+ name)) n stamp stamp in
                      (Uploaded savedRecord name,
                       Some (mkStore (Students st) (Faculties st) (GPA st ++ [savedRecord])%list
                                     (Activities st) (Extracurriculam st) (Interned st)
                                     (Company st) (Skill st)),
                       disk)
                  | _, _ => failed
                  end
              end
          end
    end.

(** [app.post('/api/academics', authenticateAdmin, upload.single('pdfFile'), ...)];
    [authDb] is the store as the middleware sees it, [db] as the
    handler does. *)
Definition postAcademics (req : Request) (b : Marks.t) (f : option Upload.t)
    (newId : string) (stamp : option Z) (authDb db : Db) (disk : list string)
  : UploadResult * Db * list string :=
  match authenticateAdmin req authDb with
  | inl r => (UploadRefused r, db, disk)
  | inr _ =>
      match uploadSingle f disk with
      | None => (UploadRefused errorMiddleware, db, disk)
      | Some (file, disk') => uploadAcademics b file newId stamp db disk'
      end
  end.

End AcademicsRoutes.

Section AcademicsList.
Context `{Runtime}.

(** GET /api/academics/student/:sid, mounted without a middleware.
    The location is prefixed whether the record has one or not. *)
Definition getStudentAcademics (sid : string) (db : Db) : Response + AcademicsSnapshot :=
  if String.eqb sid "" then inl (Json 400 [("error", "Student ID (sid) is required")])
  else
    match db with
    | None => inl (Json 500 [("error", "Failed to retrieve academic records")])
    | Some st =>
        let academicRecords :=
          JS.sort by_semester (filter (fun r => Academic.sid r = sid) (GPA st)) in
        let recordsWithFullUrl :=
          map (fun r => Academic.with_url
                          (Some ("http://localhost:" +:+ port +:+ JS.interpolate (Academic.url r))) r)
              academicRecords in
        inr (mkAcademics "Academic records retrieved successfully" sid
                         (length recordsWithFullUrl) recordsWithFullUrl)
    end.

End AcademicsList.

(** ** Sessions: the ticks of a run *)

(** A poll whose query succeeded, a heartbeat tick, and a signal that
    leaves the session open: neither the [close] listener nor the
    [error] listener runs. *)
Definition answeredPoll (sig : Signal) : bool :=
  match sig with
  | PollTick (Some _) => true
  | _ => false
  end.

Definition heartbeatTick (sig : Signal) : bool :=
  match sig with
  | HeartbeatTick => true
  | _ => false
  end.

Definition keepsOpen (sig : Signal) : bool :=
  match sig with
  | ReqClose | ResError => false
  | _ => true
  end.

Definition is_heartbeat (c : Chunk) : bool :=
  match c with
  | Comment _ => true
  | _ => false
  end.

Definition is_errorEvent (c : Chunk) : bool :=
  match c with
  | ErrorEvent _ => true
  | _ => false
  end.

(** ** Browser side: the submission form and the rest of the requests page *)

Inductive AchievementType := inters | curriculam | extracurriculam | placed | skill.

(** [ACHIEVEMENT_TYPE_MAPPING] *)
Definition achievementKey (t : AchievementType) : string :=
  match t with
  | inters => "internship"
  | curriculam => "curriculam"
  | extracurriculam => "extracurriculam"
  | placed => "placement"
  | skill => "skill"
  end.

(** [getFormFields]: the names of the required fields, and [pdfRequired]. *)
Definition getFormFields (t : AchievementType) : list string * bool :=
  match t with
  | inters => (["companyname"; "duration"; "companytype"], true)
  | curriculam => (["activities"; "description"], false)
  | extracurriculam => (["activities"; "description"], false)
  | placed => (["companyname"; "companytype"], true)
  | skill => (["skillname"], true)
  end.

(** The keys of the student map the data handler builds: the distinct
    owners of the listed documents. *)
Definition uniqueSids (docs : list PendingDocument) : list string :=
  remove_dups (map (fun p => Doc.sid (pd_doc p)) docs).

(** The listener of the page for the named data event; [None] is a
    payload [JSON.parse] rejects, which is logged and changes nothing.
    [previousCount] is the ref the handler keeps between events. *)
Definition pageOnPending (data : option PendingSnapshot) (p : Page.t) : Page.t :=
  match data with
  | None => p
  | Some d =>
      let total := pend_totalCount d in
      let previous := Page.previousCount p in
      let toasts :=
        if Nat.ltb 0 previous && negb (Nat.eqb total previous) && Nat.ltb previous total then
          let diff := (total - previous)%nat in
          (Page.toasts p
           ++ [mkToast "🔔 New Pending Requests"
                 (pretty diff +:+ " new " +:+ (if Nat.eqb diff 1 then "request" else "requests"))])%list
        else Page.toasts p in
      Page.mk (pend_documents d) total false (Page.isLiveConnected p)
              (Page.eventSource p) (Page.reconnectTimers p) total toasts
  end.


(** ** Notions the further properties are stated with *)

(** Two documents that differ at most in what a review writes: status,
    description and update time. *)
Definition sameSubmission (d d' : Doc.t) : Prop :=
  Doc._id d = Doc._id d' /\ Doc.sid d = Doc.sid d' /\ Doc.url d = Doc.url d'
  /\ Doc.createdAt d = Doc.createdAt d' /\ Doc.activities d = Doc.activities d'
  /\ Doc.companyname d = Doc.companyname d' /\ Doc.duration d = Doc.duration d'
  /\ Doc.companytype d = Doc.companytype d' /\ Doc.skillname d = Doc.skillname d'.

(** Two stores that differ at most in the review state of their submissions. *)
Definition sameButReviews (st st' : Store) : Prop :=
  Students st = Students st' /\ Faculties st = Faculties st' /\ GPA st = GPA st'
  /\ forall m, Forall2 sameSubmission (documents m st) (documents m st').

(** The request [fetch] sends for a [Post] of the requests page:
    [Authorization: `Bearer ${adminToken}`] and the JSON body. *)
Definition postRequest (bearer : string) (b : Body.t) : Request :=
  mkRequest (Some ("Bearer " +:+ bearer)) None "" b.

(** A text field of the submission form by its name. *)
Definition formField (name : string) (b : Form.t) : option string :=
  if String.eqb name "activities" then Form.activities b
  else if String.eqb name "description" then Form.description b
  else if String.eqb name "companyname" then Form.companyname b
  else if String.eqb name "duration" then Form.duration b
  else if String.eqb name "companytype" then Form.companytype b
  else if String.eqb name "skillname" then Form.skillname b
  else None.

(** A run of data events through a stream hook. *)
Definition hookUpdates {A} (h : Hook) (events : list (option (list A))) (s : HookState.t A)
  : HookState.t A :=
  foldl (fun s e => onUpdate h e s) s events.

(** Further concrete requests and stores, for the examples. *)
(** The payloads the registration and login routes sign, as far as the
    middlewares read them: [{ studentId: student._id, sid, emailid }]
    for a student and [{ facultyId: faculty._id, facultyid, emailid,
    role: 'admin' }] for a faculty member. *)
Definition studentClaims (s : Student.t) : Claims :=
  mkClaims (Some (Student._id s)) None None.

Definition adminClaims (f : Faculty.t) : Claims :=
  mkClaims None (Some (Faculty._id f)) (Some "admin").

Module Scenario.

Definition studentRequest : Request := mkRequest (Some "Bearer tok-A") None "" Body.empty.

Definition pdf (name : string) : Upload.t := Upload.mk "application/pdf" false name.

Definition skillForm : Form.t :=
  Form.mk (Some "skill") None None None None None (Some "Python").

Definition activityForm (key : string) : Form.t :=
  Form.mk (Some key) (Some "Debate") (Some "annual meet") None None None None.

(** The certificate the skill form creates. *)
Definition certificate : Doc.t :=
  Doc.mk "k9" "S001" (Some "/uploads/1-cert.pdf") pending None (Some 300) (Some 300)
         None None None None (Some "Python").

Definition withCertificate : Store :=
  Demo.people [] [] [] [] []
    [Demo.skillDoc "k0" "S002" accepted 50; Demo.skillDoc "k1" "S001" pending 100; certificate].

(** The queue item of the pending certificate [k1] of [Demo.store]. *)
Definition queueItem : PendingDocument :=
  mkPending (Doc.mk "k1" "S001" (Some "http://localhost:5000/uploads/k1.pdf") pending None
               (Some 100) (Some 100) None None None None (Some "Python"))
            "skill" (Some "Python") (Some "Skill Certificate").

(** A pending curricular activity that was submitted without a file. *)
Definition unattached : PendingDocument :=
  mkPending (Demo.activityDoc "a1" "S001" pending 100) "curriculam"
            (Some "Debate") (Some "annual meet").

Definition marks (sem : string) : Marks.t := Marks.mk (Some "S001") (Some "8.5") (Some sem).

(** A stand-in for [parseFloat] that knows the one GPA of the examples. *)
Definition parseGpa (s : string) : option Q :=
  if String.eqb s "8.5" then Some (17 # 2) else None.

Definition semesterThree : Academic.t :=
  Academic.mk "g3" "S001" (17 # 2) (Some "/uploads/2-sem3.pdf") 3 (Some 300) (Some 300).

End Scenario.


(** * Properties *)

(** ** The stable sort *)

Section SortFacts.
Context {A : Type} (cmp : A -> A -> Z).

Lemma insert_sorted_Permutation (x : A) (l : list A) :
  JS.insert_sorted cmp x l ≡ₚ x :: l.
Proof.
  induction l as [|y l IH]; simpl; [reflexivity|].
  destruct (cmp x y <=? 0); [reflexivity|].
  rewrite IH. apply Permutation_swap.
Qed.

Lemma sort_Permutation (l : list A) : JS.sort cmp l ≡ₚ l.
Proof.
  induction l as [|x l IH]; simpl; [reflexivity|].
  rewrite insert_sorted_Permutation. by rewrite IH.
Qed.

Lemma sort_length (l : list A) : length (JS.sort cmp l) = length l.
Proof. by rewrite sort_Permutation. Qed.

(** The comparator decides a total preorder [R]. *)
Context (R : A -> A -> Prop).
Hypothesis cmp_le : forall a b, cmp a b <= 0 -> R a b.
Hypothesis cmp_gt : forall a b, 0 < cmp a b -> R b a.
Hypothesis R_trans : forall a b c, R a b -> R b c -> R a c.

Lemma insert_sorted_StronglySorted (x : A) (l : list A) :
  StronglySorted R l -> StronglySorted R (JS.insert_sorted cmp x l).
Proof.
  induction 1 as [|y l Hl IH Hy]; simpl.
  - repeat constructor.
  - destruct (Z.leb_spec (cmp x y) 0) as [Hle|Hgt].
    + constructor; [by constructor|].
      constructor; [by apply cmp_le|].
      eapply Forall_impl; [exact Hy|]. intros z Hz.
      eapply R_trans; [apply cmp_le|]; eauto.
    + constructor; [exact IH|].
      rewrite insert_sorted_Permutation. constructor; [by apply cmp_gt|exact Hy].
Qed.

Lemma sort_StronglySorted (l : list A) : StronglySorted R (JS.sort cmp l).
Proof.
  induction l as [|x l IH]; simpl; [constructor|].
  by apply insert_sorted_StronglySorted.
Qed.

End SortFacts.

Lemma newest_first_sorted (l : list Doc.t) :
  StronglySorted (fun a b => created b <= created a) (JS.sort newest_first l).
Proof. apply sort_StronglySorted; unfold newest_first; intros; lia. Qed.

Lemma by_semester_sorted (l : list Academic.t) :
  StronglySorted (fun a b => Academic.sem a <= Academic.sem b) (JS.sort by_semester l).
Proof. apply sort_StronglySorted; unfold by_semester; intros; lia. Qed.

Lemma pending_newest_first_sorted (l : list PendingDocument) :
  StronglySorted (fun a b => created (pd_doc b) <= created (pd_doc a))
    (JS.sort (fun a b => newest_first (pd_doc a) (pd_doc b)) l).
Proof. apply sort_StronglySorted; unfold newest_first; intros; lia. Qed.

(** ** Snapshots *)

Section SnapshotFacts.
Context `{Runtime}.

Lemma pending_documents_tagged (st : Store) :
  map (fun p => (documentType p, pd_doc p)) (pend_documents (fetchPendingDocuments st))
  ≡ₚ taggedPending st.
Proof.
  unfold fetchPendingDocuments, taggedPending; simpl.
  rewrite sort_Permutation.
  rewrite !map_app, !map_map. reflexivity.
Qed.

Lemma pending_total (st : Store) :
  pend_totalCount (fetchPendingDocuments st)
  = length (filter is_pending (Activities st ++ Interned st ++ Company st ++ Skill st)%list).
Proof.
  unfold fetchPendingDocuments; simpl.
  rewrite sort_length, !filter_app. by rewrite !length_map, !length_app, !length_map.
Qed.

End SnapshotFacts.

(** C10.  In every snapshot payload the reported count is the length of
    the list that accompanies it, and in the admin payload the counts of
    the breakdown add up to the total count. *)
Theorem snapshot_counts_consistent `{Runtime} (sid : string) (st : Store) :
  docs_totalCount (fetchStudentSkills sid st)
    = length (docs_documents (fetchStudentSkills sid st))
  /\ docs_totalCount (fetchStudentCurricular sid st)
    = length (docs_documents (fetchStudentCurricular sid st))
  /\ ac_count (fetchStudentAcademics sid st)
    = length (ac_records (fetchStudentAcademics sid st))
  /\ pend_totalCount (fetchPendingDocuments st)
    = length (pend_documents (fetchPendingDocuments st))
  /\ sum_list (map snd (pend_breakdown (fetchPendingDocuments st)))
    = pend_totalCount (fetchPendingDocuments st).
Proof.
  repeat split.
  unfold fetchPendingDocuments; simpl.
  rewrite sort_length. rewrite !length_map, !length_app, !length_map. lia.
Qed.

(** What the admin query does return: exactly the pending submissions
    of the four collections it reads (curricular, internship, placement,
    skill), each under its variant name and with its location made
    absolute, and a breakdown with the four keys curriculam,
    internships, placements, skills.  The Extracurriculam collection
    has no influence on it. *)
Lemma admin_snapshot_four_variants `{Runtime} (st : Store) :
  map (fun p => (documentType p, pd_doc p)) (pend_documents (fetchPendingDocuments st))
    ≡ₚ taggedPending st
  /\ pend_breakdown (fetchPendingDocuments st)
     = [ ("curriculam", length (filter is_pending (Activities st)));
         ("internships", length (filter is_pending (Interned st)));
         ("placements", length (filter is_pending (Company st)));
         ("skills", length (filter is_pending (Skill st))) ]
  /\ fetchPendingDocuments st
     = fetchPendingDocuments
         (mkStore (Students st) (Faculties st) (GPA st) (Activities st) []
                  (Interned st) (Company st) (Skill st)).
Proof.
  split; [apply pending_documents_tagged|].
  split; [|reflexivity].
  unfold fetchPendingDocuments; simpl. by rewrite !length_map.
Qed.

(** C2, the failing case.  The admin snapshot should hold the pending
    submissions of all five variants and a breakdown count for each of
    them.  With one pending extracurricular submission in the store the
    snapshot the server computes is empty, and its breakdown has no
    extracurriculam key. *)
Theorem admin_snapshot_misses_extracurricular :
  let st := Demo.extracurricularOnly in
  let snap := @fetchPendingDocuments Demo.node st in
  pend_documents snap = []
  /\ assoc "extracurriculam" (pend_breakdown snap) = None
  /\ ~ (map pd_doc (pend_documents snap)
       ≡ₚ map (@absolute Demo.node)
            (filter is_pending
               (Activities st ++ Extracurriculam st ++ Interned st ++ Company st ++ Skill st)%list))
  /\ ~ (map fst (pend_breakdown snap)
          ≡ₚ ["curriculam"; "extracurriculam"; "internships"; "placements"; "skills"]).
Proof.
  do 2 (split; [reflexivity|]). split; intros Hp.
  - vm_compute in Hp. by apply Permutation_nil_cons in Hp.
  - apply Permutation_length in Hp. vm_compute in Hp. discriminate.
Qed.

(** C5, as amended.  The skills, curricular and admin snapshots list
    their items newest first by creation time (a missing time counts as
    the epoch), the academics snapshot lists its records by ascending
    semester.  Each carries as its count the number of matching
    submissions: those of the student in the collection of the scope,
    and for the admin scope the pending submissions of all five
    variants, which the admin snapshot meets on every store without a
    pending extracurricular submission (the collection its query
    leaves out). *)
Theorem snapshots_order_and_count `{Runtime} (sid : string) (st : Store) :
  (StronglySorted (fun a b => created b <= created a)
     (docs_documents (fetchStudentSkills sid st))
   /\ docs_totalCount (fetchStudentSkills sid st)
      = length (filter (fun d => Doc.sid d = sid) (Skill st)))
  /\ (StronglySorted (fun a b => created b <= created a)
        (docs_documents (fetchStudentCurricular sid st))
      /\ docs_totalCount (fetchStudentCurricular sid st)
         = length (filter (fun d => Doc.sid d = sid) (Activities st)))
  /\ (StronglySorted (fun a b => created (pd_doc b) <= created (pd_doc a))
        (pend_documents (fetchPendingDocuments st))
      /\ (filter is_pending (Extracurriculam st) = [] ->
          pend_totalCount (fetchPendingDocuments st)
          = length (filter is_pending
                      (Activities st ++ Extracurriculam st ++ Interned st
                       ++ Company st ++ Skill st)%list)))
  /\ (StronglySorted (fun a b => Academic.sem a <= Academic.sem b)
        (ac_records (fetchStudentAcademics sid st))
      /\ ac_count (fetchStudentAcademics sid st)
         = length (filter (fun r => Academic.sid r = sid) (GPA st))).
Proof.
  repeat split.
  - apply newest_first_sorted.
  - unfold fetchStudentSkills; simpl. by rewrite sort_length, length_map.
  - apply newest_first_sorted.
  - unfold fetchStudentCurricular; simpl. by rewrite sort_length, length_map.
  - apply pending_newest_first_sorted.
  - intros Hnone. rewrite pending_total, !filter_app, Hnone. reflexivity.
  - unfold fetchStudentAcademics; simpl.
    assert (Hmap : forall l, StronglySorted (fun a b => Academic.sem a <= Academic.sem b) l ->
              StronglySorted (fun a b => Academic.sem a <= Academic.sem b)
                (map (fun r => Academic.with_url (fullUrl (Academic.url r)) r) l)).
    { induction 1 as [|x l Hl IH Hx]; simpl; constructor; [exact IH|].
      apply Forall_map. eapply Forall_impl; [exact Hx|]. by intros []. }
    apply Hmap, by_semester_sorted.
  - unfold fetchStudentAcademics; simpl. by rewrite length_map, sort_length.
Qed.

Lemma snapshots_order_and_count_witness :
  pend_totalCount (@fetchPendingDocuments Demo.node Demo.store)
  = length (filter is_pending
              (Activities Demo.store ++ Extracurriculam Demo.store ++ Interned Demo.store
               ++ Company Demo.store ++ Skill Demo.store)%list).
Proof.
  exact (proj2 (proj1 (proj2 (proj2 (@snapshots_order_and_count Demo.node "S001" Demo.store))))
           eq_refl).
Defined.

(** C5 as stated fails for the academics snapshot: semester 1, uploaded
    first, is listed before the newer semester 2. *)
Lemma academics_snapshot_not_newest_first :
  ~ StronglySorted
      (fun a b => default 0 (Academic.createdAt b) <= default 0 (Academic.createdAt a))
      (ac_records (@fetchStudentAcademics Demo.node "S001" Demo.twoSemesters)).
Proof.
  intros Hs. vm_compute in Hs.
  apply StronglySorted_inv in Hs as [_ Hf].
  apply Forall_inv in Hf. vm_compute in Hf. by apply Hf.
Qed.

(** ** Subscriber sessions *)

Lemma writes_app (a b : list Effect) : writes (a ++ b) = (writes a ++ writes b)%list.
Proof. unfold writes. apply omap_app. Qed.

Section SessionFacts.
Context `{Runtime}.

Lemma session_unfold (sc : Scope) (db : Db) (sigs : list Signal) :
  snd (session sc db sigs)
  = (snd (openStream sc db) ++ snd (run (fst (openStream sc db)) sigs))%list.
Proof.
  unfold session. destruct (openStream sc db) as [s0 out0]; simpl.
  by destruct (run s0 sigs).
Qed.

(** The handler leaves both timers registered. *)
Lemma openStream_registers (sc : Scope) (db : Db) :
  fst (openStream sc db) = mkSession sc true true false.
Proof. reflexivity. Qed.

End SessionFacts.

(** C6, as amended.  Opening a session writes exactly one chunk before
    either timer exists: the snapshot of the scope when the initial
    query succeeds, an error event in its place when it fails; whatever
    the timers write afterwards comes behind it. *)
Theorem initial_push_precedes_ticks `{Runtime}
    (sc : Scope) (st : Store) (db : Db) (sigs : list Signal) :
  writes (snd (openStream sc (Some st))) = [Event (eventName sc) (snapshot sc st)]
  /\ writes (snd (openStream sc None)) = [ErrorEvent (initialFailure sc)]
  /\ writes (snd (session sc (Some st) sigs))
     = Event (eventName sc) (snapshot sc st)
       :: writes (snd (run (fst (openStream sc (Some st))) sigs))
  /\ writes (snd (session sc None sigs))
     = ErrorEvent (initialFailure sc)
       :: writes (snd (run (fst (openStream sc None)) sigs))
  /\ length (writes (snd (openStream sc db))) = 1%nat.
Proof.
  repeat split; try (rewrite session_unfold, writes_app; reflexivity).
  by destruct db.
Qed.

(** C6 as stated fails: when the store is unreachable at connection
    open, no snapshot is pushed, an error event is. *)
Lemma no_snapshot_when_initial_query_fails :
  List.filter is_snapshot (writes (snd (@openStream Demo.node AdminPending None))) = []
  /\ length (List.filter is_snapshot
               (writes (snd (@openStream Demo.node AdminPending None)))) <> 1%nat.
Proof. split; [reflexivity | vm_compute; discriminate]. Qed.

(** C7, as amended.  A timer-driven poll tick whose query fails writes
    nothing to the subscriber: the failure goes to the server console
    only, the session and its timers stay as they were, and the next
    tick pushes a snapshot again. *)
Theorem failed_poll_is_logged_and_skipped `{Runtime} (s : Session) (st : Store) :
  pollInterval s = true ->
  step s (PollTick None) = (s, [ConsoleError (pollFailureLog (scope s))])
  /\ writes (snd (step s (PollTick None))) = []
  /\ snd (step (fst (step s (PollTick None))) (PollTick (Some st)))
     = [Write (Event (eventName (scope s)) (snapshot (scope s) st))].
Proof.
  intros Hp. unfold step. rewrite Hp. simpl. by rewrite Hp.
Qed.

Lemma failed_poll_is_logged_and_skipped_witness :
  writes (snd (@step Demo.node (mkSession AdminPending true true false) (PollTick None))) = []
  /\ snd (@step Demo.node (mkSession AdminPending true true false) (PollTick (Some Demo.store)))
     = [Write (Event "pending-documents"
                 (PendingPayload (@fetchPendingDocuments Demo.node Demo.store)))].
Proof.
  destruct (@failed_poll_is_logged_and_skipped Demo.node
              (mkSession AdminPending true true false) Demo.store)
    as (_ & Hw & Hnext); [reflexivity|].
  split; [exact Hw | exact Hnext].
Defined.

(** C7 as stated fails: on a failing poll tick of an open session no
    error event, and nothing else, reaches the subscriber. *)
Lemma failed_poll_reports_nothing :
  let s := fst (@openStream Demo.node AdminPending (Some Demo.store)) in
  ~ (exists e, In (ErrorEvent e) (writes (snd (@step Demo.node s (PollTick None))))).
Proof. intros s [e He]. vm_compute in He. exact He. Qed.

(** ** Authentication *)

Section AuthFacts.
Context `{Runtime}.

Lemma authenticateAdmin_no_token (req : Request) (db : Db) :
  JS.truthy (bearerToken req) = false ->
  authenticateAdmin req db = inl (Json 401 [("error", "Access denied. No token provided.")]).
Proof. intros Ht. unfold authenticateAdmin. by rewrite Ht. Qed.

Lemma authenticateAdmin_invalid_token (req : Request) (db : Db) (token : string) :
  bearerToken req = Some token -> token <> "" -> jwt_verify token = None ->
  authenticateAdmin req db = inl (Json 401 [("error", "Invalid token.")]).
Proof.
  intros Ht Hne Hv. unfold authenticateAdmin. rewrite Ht. simpl.
  destruct (String.eqb_spec token ""); [done|]. simpl. by rewrite Hv.
Qed.

Lemma authenticateAdmin_not_admin (req : Request) (db : Db) (token : string) (c : Claims) :
  bearerToken req = Some token -> token <> "" -> jwt_verify token = Some c ->
  role c <> Some "admin" ->
  authenticateAdmin req db = inl (Json 403 [("error", "Access denied. Admin privileges required.")]).
Proof.
  intros Ht Hne Hv Hr. unfold authenticateAdmin. rewrite Ht. simpl.
  destruct (String.eqb_spec token ""); [done|]. simpl. rewrite Hv.
  by rewrite bool_decide_eq_false_2.
Qed.

(** A refusal of the middleware is the answer of the guarded review
    routes, and the store is left alone. *)
Lemma review_routes_guarded (now : option Z) (req : Request) (authDb db : Db) (r : Response) :
  authenticateAdmin req authDb = inl r ->
  postSkillsAccept now req authDb db = (r, db) /\ postSkillsReject now req authDb db = (r, db).
Proof. intros Ha. unfold postSkillsAccept, postSkillsReject. by rewrite Ha. Qed.

(** The header is read first, the query parameter only without it. *)
Lemma bearerToken_query (token : string) (p : string) (b : Body.t) :
  token <> "" -> bearerToken (mkRequest None (Some token) p b) = Some token.
Proof. intros Hne. unfold bearerToken; simpl. by destruct (String.eqb_spec token ""). Qed.

(** The skills and curricular streams have no target parameter: their
    scope is the student of the token. *)
Lemma own_scope_streams (req : Request) (authDb db : Db) (student : Student.t) :
  authenticateStudent req authDb = inr student ->
  studentSkillsStream req authDb db
    = opened (openStream (StudentSkills (Student.sid student)) db)
  /\ studentCurricularStream req authDb db
     = opened (openStream (StudentCurricular (Student.sid student)) db).
Proof. intros Ha. unfold studentSkillsStream, studentCurricularStream. by rewrite Ha. Qed.

End AuthFacts.

(** What the admin stream route does.  It is mounted without the admin
    middleware and never reads its request: the same stream is opened
    for every request, whatever its Authorization header or token
    parameter, and its first chunk is the admin snapshot (an error
    event when the initial query fails). *)
Lemma admin_stream_is_public `{Runtime} (req req' : Request) (st : Store) (db : Db) :
  adminPendingStream req db = adminPendingStream req' db
  /\ adminPendingStream req db
     = Opened (mkSession AdminPending true true false) (snd (openStream AdminPending db))
  /\ writes (snd (openStream AdminPending (Some st)))
     = [Event "pending-documents" (PendingPayload (fetchPendingDocuments st))]
  /\ writes (snd (openStream AdminPending None)) = [ErrorEvent "Failed to fetch initial data"].
Proof. repeat split. Qed.

(** C1, the failing case.  Opening the admin stream should take a valid
    admin credential, as the admin middleware asks wherever it is
    mounted.  The stream route does not mount it: a request that
    carries no credential at all, which the middleware refuses with 401,
    is not refused; it opens the stream and is sent the snapshot of the
    pending queue. *)
Theorem admin_stream_opens_without_credential :
  @authenticateAdmin Demo.node Demo.anonymous (Some Demo.store)
    = inl (Json 401 [("error", "Access denied. No token provided.")])
  /\ ~ (exists r, @adminPendingStream Demo.node Demo.anonymous (Some Demo.store) = Refused r)
  /\ (exists s out,
        @adminPendingStream Demo.node Demo.anonymous (Some Demo.store) = Opened s out
        /\ writes out
           = [Event "pending-documents"
                (PendingPayload (@fetchPendingDocuments Demo.node Demo.store))]).
Proof.
  split; [reflexivity|]. split.
  - intros [r Hr]. discriminate Hr.
  - eexists _, _. split; reflexivity.
Qed.

(** C8.  A request for the academics stream whose token belongs to one
    student and whose path names another is refused with 403 and no
    stream is opened, so no snapshot is sent. *)
Theorem cross_student_stream_forbidden `{Runtime}
    (req : Request) (authDb db : Db) (student : Student.t) :
  authenticateStudent req authDb = inr student ->
  params_sid req <> Student.sid student ->
  studentAcademicsStream req authDb db
  = Refused (Json 403 [("error", "Access denied. Can only view your own academic records.")]).
Proof.
  intros Ha Hne. unfold studentAcademicsStream. rewrite Ha.
  by destruct (String.eqb_spec (params_sid req) (Student.sid student)).
Qed.

Lemma cross_student_stream_forbidden_witness :
  @studentAcademicsStream Demo.node Demo.crossRequest (Some Demo.store) (Some Demo.store)
  = Refused (Json 403 [("error", "Access denied. Can only view your own academic records.")]).
Proof.
  apply (@cross_student_stream_forbidden Demo.node Demo.crossRequest
           (Some Demo.store) (Some Demo.store) Demo.studentA).
  - reflexivity.
  - vm_compute. discriminate.
Defined.

(** ** Review actions *)

Lemma truthy_Some (s : string) : s <> "" -> JS.truthy (Some s) = true.
Proof. intros Hne. simpl. by destruct (String.eqb_spec s ""). Qed.

Lemma filterBy_url (sid docurl : string) (d : Doc.t) :
  filterBy sid "url" docurl d = true <-> Doc.sid d = sid /\ Doc.url d = Some docurl.
Proof.
  unfold filterBy, docField; simpl.
  rewrite andb_true_iff, bool_decide_eq_true.
  by destruct (String.eqb_spec (Doc.sid d) sid); intuition.
Qed.

(** [findOneAndUpdate] rewrites the first match in place and nothing else. *)
Lemma findOneAndUpdate_first (sid docurl : string) (f : Doc.t -> Doc.t) (l : list Doc.t) :
  findOneAndUpdate (filterBy sid "url" docurl) f l
  = match list_find (fun d => Doc.sid d = sid /\ Doc.url d = Some docurl) l with
    | Some (i, d) => Some (f d, <[i := f d]> l)
    | None => None
    end.
Proof.
  induction l as [|d l IH]; [reflexivity|].
  cbn [findOneAndUpdate list_find]. case_decide as Hd.
  - apply filterBy_url in Hd. by rewrite Hd.
  - destruct (filterBy sid "url" docurl d) eqn:Hf; [by apply filterBy_url in Hf|].
    rewrite IH. by destruct (list_find _ l) as [[i x]|].
Qed.

(** Only the models of the submission collections have a review status;
    they all have the other paths the handlers ask for, and [url] is
    their first location field. *)
Lemma status_path_paths (m : Model) :
  schema_path m "status" = true ->
  schema_path m "sid" = true /\ schema_path m "description" = true
  /\ List.find (schema_path m) urlFieldCandidates = Some "url".
Proof. destruct m; intros Hs; try discriminate Hs; by vm_compute. Qed.

Lemma documents_setDocuments (m : Model) (l : list Doc.t) (st : Store) :
  schema_path m "status" = true ->
  documents m (setDocuments m l st) = l
  /\ (forall m', m' <> m -> documents m' (setDocuments m l st) = documents m' st)
  /\ Students (setDocuments m l st) = Students st
  /\ Faculties (setDocuments m l st) = Faculties st
  /\ GPA (setDocuments m l st) = GPA st.
Proof.
  destruct m; intros Hs; try discriminate Hs; repeat split;
    intros m' Hne; by destruct m'.
Qed.

Section ReviewFacts.
Context `{Runtime}.

Lemma acceptDocument_effect (now : option Z) (b : Body.t) (st : Store) (m : Model)
    (sid raw ty : string) :
  Body.sid b = Some sid -> sid <> "" ->
  docurlRaw b = Some raw -> raw <> "" ->
  documentypeRaw b = Some ty -> ty <> "" ->
  resolveModel (JS.toLowerCase (JS.trim ty)) = Some (IsModel m) ->
  schema_path m "status" = true ->
  acceptDocument now b (Some st)
  = match list_find (fun d => Doc.sid d = sid /\ Doc.url d = Some (docurlOf raw))
            (documents m st) with
    | Some (i, d) =>
        (Json 200 [("message", "successfully accepted")],
         Some (setDocuments m (<[i := Doc.review accepted None now d]> (documents m st)) st))
    | None => (Json 404 [("error", "Document not found for given sid and docurl")], Some st)
    end.
Proof.
  intros Hsid Hsid' Hraw Hraw' Hty Hty' Hm Hst.
  destruct (status_path_paths m Hst) as (Hp & _ & Hu).
  unfold acceptDocument.
  rewrite Hsid, Hraw, Hty, !truthy_Some by done. cbn [negb orb default from_option id].
  rewrite Hm. change (resolvedPath (IsModel m)) with (schema_path m).
  rewrite Hst, Hp, Hu. cbn [negb].
  rewrite findOneAndUpdate_first.
  by destruct (list_find _ (documents m st)) as [[i d]|].
Qed.


(** A reject request without a description, or with the empty one, is
    refused and the store keeps its state. *)
Lemma reject_requires_description (now : option Z) (b : Body.t) (db : Db) :
  JS.truthy (Body.description b) = false ->
  rejectDocument now b db
  = (Json 400 [("error", "Missing required fields: sid, url (or docurl), documentType, description")],
     db).
Proof.
  intros Hd. unfold rejectDocument. rewrite Hd. cbn [negb].
  by rewrite !orb_true_r.
Qed.

End ReviewFacts.

(** The requests page asks again instead of posting a blank reason. *)
Lemma page_refuses_blank_reason (token : string) (busy : bool) (doc : PendingDocument)
    (reason : string) :
  token <> "" -> JS.trim reason = "" ->
  handleRequestAction (Some token) busy doc rejected (Some reason)
  = [ShowToast (mkToast "Description required" "Please enter a rejection description.")].
Proof.
  intros Ht Hr. unfold handleRequestAction.
  rewrite truthy_Some by done. cbn [negb]. rewrite bool_decide_eq_true_2 by done.
  by rewrite Hr.
Qed.



(** C4, the failing case.  A reject request whose description is three
    blanks passes the server's check: the answer is 200 and the blanks
    are stored as the description of the document. *)
Theorem reject_accepts_blank_description :
  JS.trim "   " = ""
  /\ @postSkillsReject Demo.node (Some 200) (Demo.rejectRequest "   ")
       (Some Demo.store) (Some Demo.store)
     = (Json 200 [("message", "successfully rejected"); ("description", "   ")],
        Some (Demo.reviewed rejected (Some "   ") (Some 200)))
  /\ Demo.reviewed rejected (Some "   ") (Some 200) <> Demo.store.
Proof. repeat split. discriminate. Qed.

(** ** Client reconnectors *)

(** C9, as amended.  On a transport error each of the three stream
    hooks marks itself not live, surfaces an error text and closes its
    connection, without a retry of its own.  The admin requests page
    marks itself not live and clears its loading flag, but surfaces no
    error and does not close the connection: it starts a five-second
    timer that opens a new connection if the old one is closed by then. *)
Theorem reconnectors_on_transport_error {A : Type}
    (rs : ReadyState) (s : HookState.t A) (p : Page.t) :
  (isLive (transportError rs s) = false
   /\ surfacedError (transportError rs s) = Some "Failed to connect to real-time updates"
   /\ connection (transportError rs s) = Some CLOSED
   /\ retryTimers (transportError rs s) = 0%nat
   /\ HookState.items (transportError rs s) = HookState.items s)
  /\ (isLive (transportError rs p) = false
      /\ Page.loading (transportError rs p) = false
      /\ surfacedError (transportError rs p) = None
      /\ connection (transportError rs p) = Some rs
      /\ retryTimers (transportError rs p) = S (retryTimers p)
      /\ Page.documents (transportError rs p) = Page.documents p)
  /\ (connection (pageReconnectTimer (transportError CLOSED p)) = Some CONNECTING
      /\ connection (pageReconnectTimer (transportError CONNECTING p)) = Some CONNECTING
      /\ connection (pageReconnectTimer (transportError OPEN p)) = Some OPEN).
Proof. repeat split. Qed.

(** C9 as stated fails for the admin requests page: after a transport
    error that left the source reconnecting, the page has surfaced no
    error, has not closed the connection and has a retry timer running. *)
Lemma requests_page_does_not_close :
  let p := transportError CONNECTING Demo.livePage in
  ~ (isLive p = false /\ surfacedError p <> None /\ connection p = Some CLOSED
     /\ retryTimers p = 0%nat)
  /\ surfacedError p = None
  /\ connection p = Some CONNECTING
  /\ retryTimers p = 1%nat.
Proof.
  split; [|repeat split].
  intros (_ & He & _). by apply He.
Qed.

(** * Further properties of the routes and the consumers *)

(** ** Review routes: what a review can and cannot change *)

Lemma sameSubmission_refl (d : Doc.t) : sameSubmission d d.
Proof. by repeat split. Qed.

Lemma sameSubmission_review (s : Status) (x : option string) (now : option Z) (d : Doc.t) :
  sameSubmission d (Doc.review s x now d).
Proof. by repeat split. Qed.

Lemma sameButReviews_refl (st : Store) : sameButReviews st st.
Proof.
  repeat split. intros m. apply Forall2_same_length_lookup_2; [done|].
  intros i d d' Hd Hd'. rewrite Hd in Hd'. injection Hd' as <-. apply sameSubmission_refl.
Qed.

Lemma findOneAndUpdate_sameSubmission (P : Doc.t -> bool) (s : Status) (x : option string)
    (now : option Z) (l l' : list Doc.t) (u : Doc.t) :
  findOneAndUpdate P (Doc.review s x now) l = Some (u, l') ->
  Forall2 sameSubmission l l' /\ exists d, u = Doc.review s x now d.
Proof.
  revert l' u. induction l as [|d l IH]; intros l' u Hf; [discriminate Hf|].
  simpl in Hf. destruct (P d).
  - injection Hf as <- <-. split; [|by eexists].
    constructor; [apply sameSubmission_review|].
    apply Forall2_same_length_lookup_2; [done|].
    intros i a b Ha Hb. rewrite Ha in Hb. injection Hb as <-. apply sameSubmission_refl.
  - destruct (findOneAndUpdate P (Doc.review s x now) l) as [[u0 r]|] eqn:Hr; [|discriminate Hf].
    injection Hf as <- <-. destruct (IH r u0 eq_refl) as [Hall Hu].
    split; [|exact Hu]. constructor; [apply sameSubmission_refl | exact Hall].
Qed.

Lemma filterBy_sameSubmission (sid f u : string) (d d' : Doc.t) :
  sameSubmission d d' -> filterBy sid f u d = filterBy sid f u d'.
Proof.
  intros (_ & Hs & Hu & _). unfold filterBy, docField. by rewrite Hs, Hu.
Qed.

Lemma findOneAndUpdate_found_alike (sid f u : string) (g : Doc.t -> Doc.t) (l1 l2 : list Doc.t) :
  Forall2 sameSubmission l1 l2 ->
  findOneAndUpdate (filterBy sid f u) g l1 = None <->
  findOneAndUpdate (filterBy sid f u) g l2 = None.
Proof.
  induction 1 as [|d d' l1 l2 Hd Hl IH]; [done|]. simpl.
  rewrite <- (filterBy_sameSubmission sid f u d d' Hd).
  destruct (filterBy sid f u d); [done|].
  destruct (findOneAndUpdate _ g l1) as [[? ?]|], (findOneAndUpdate _ g l2) as [[? ?]|];
    intuition discriminate.
Qed.

Lemma sameButReviews_setDocuments (m : Model) (l' : list Doc.t) (st : Store) :
  Forall2 sameSubmission (documents m st) l' -> sameButReviews st (setDocuments m l' st).
Proof.
  intros Hl. repeat split; try by destruct m.
  intros m'. destruct m, m'; simpl in *; try exact Hl;
    try (apply Forall2_same_length_lookup_2; [done|];
         intros i a b Ha Hb; rewrite Ha in Hb; injection Hb as <-; apply sameSubmission_refl).
Qed.

#[local] Ltac refused_early :=
  left; eexists; split; cycle 1; [intros ?; reflexivity | reflexivity].

Section ReviewShape.
Context `{Runtime}.

(** A review request is either refused before the store is consulted,
    with the same answer whatever the store, or it comes down to one
    [findOneAndUpdate] on one submission collection. *)
Lemma acceptDocument_cases (now : option Z) (b : Body.t) :
  (exists r, statusCode r = 400%nat /\ forall db, acceptDocument now b db = (r, db))
  \/ (exists m sid u,
        schema_path m "status" = true /\
        forall db,
          acceptDocument now b db
          = match db with
            | None => (Json 500 [("error", "Internal server error")], None)
            | Some st =>
                match findOneAndUpdate (filterBy sid "url" u) (Doc.review accepted None now)
                        (documents m st) with
                | None =>
                    (Json 404 [("error", "Document not found for given sid and docurl")], Some st)
                | Some (_, l') =>
                    (Json 200 [("message", "successfully accepted")],
                     Some (setDocuments m l' st))
                end
            end).
Proof.
  unfold acceptDocument.
  destruct (negb (JS.truthy (Body.sid b)) || negb (JS.truthy (docurlRaw b))
            || negb (JS.truthy (documentypeRaw b))); [refused_early|].
  destruct (resolveModel _) as [r|]; [|refused_early].
  destruct r as [m|]; [|refused_early].
  cbn [resolvedPath].
  destruct (schema_path m "status") eqn:Hst; [|refused_early].
  destruct (status_path_paths m Hst) as (Hp & _ & Hu).
  change (resolvedPath (IsModel m)) with (schema_path m). rewrite Hp, Hu. cbn [negb].
  right. exists m, (default "" (Body.sid b)), (docurlOf (default "" (docurlRaw b))).
  split; [done|]. by intros [st|].
Qed.

Lemma rejectDocument_cases (now : option Z) (b : Body.t) :
  (exists r, statusCode r = 400%nat /\ forall db, rejectDocument now b db = (r, db))
  \/ (exists m sid u,
        schema_path m "status" = true /\
        forall db,
          rejectDocument now b db
          = match db with
            | None => (Json 500 [("error", "Internal server error")], None)
            | Some st =>
                match findOneAndUpdate (filterBy sid "url" u)
                        (Doc.review rejected (Body.description b) now) (documents m st) with
                | None =>
                    (Json 404 [("error", "Document not found for given sid and url")], Some st)
                | Some (updated, l') =>
                    (Json 200 [("message", "successfully rejected");
                               ("description", default "" (Doc.description updated))],
                     Some (setDocuments m l' st))
                end
            end).
Proof.
  unfold rejectDocument.
  destruct (negb (JS.truthy (Body.sid b)) || negb (JS.truthy (docurlRaw b))
            || negb (JS.truthy (documentypeRaw b)) || negb (JS.truthy (Body.description b)));
    [refused_early|].
  destruct (resolveModel _) as [r|]; [|refused_early].
  destruct r as [m|]; [|refused_early].
  cbn [resolvedPath].
  destruct (schema_path m "status") eqn:Hst; [|refused_early].
  destruct (status_path_paths m Hst) as (Hp & Hd & Hu).
  change (resolvedPath (IsModel m)) with (schema_path m). rewrite Hp, Hd, Hu. cbn [negb].
  right. exists m, (default "" (Body.sid b)), (docurlOf (default "" (docurlRaw b))).
  split; [done|]. by intros [st|].
Qed.

(** The admin check reads the Faculty collection only. *)
Lemma authenticateAdmin_faculties (req : Request) (st st' : Store) :
  Faculties st = Faculties st' ->
  authenticateAdmin req (Some st) = authenticateAdmin req (Some st').
Proof. intros Hf. unfold authenticateAdmin. by rewrite Hf. Qed.

End ReviewShape.

(** X1.  A review route that does not answer 200 leaves the store as it
    found it: refusals for a bad credential, a missing field or an
    unknown variant, the 404 of a missing document and the 500 of an
    unreachable store change nothing.  The store may become
    unreachable between the admin check and the handler's update: a
    request that passed the check then gets a 400, if the handler
    refuses its fields anyway, or the 500. *)
Theorem review_changes_only_on_success `{Runtime}
    (now : option Z) (req : Request) (authDb db : Db) :
  (statusCode (fst (postSkillsAccept now req authDb db)) = 200%nat
   \/ snd (postSkillsAccept now req authDb db) = db)
  /\ (statusCode (fst (postSkillsReject now req authDb db)) = 200%nat
      \/ snd (postSkillsReject now req authDb db) = db)
  /\ (forall faculty, authenticateAdmin req authDb = inr faculty ->
        (statusCode (fst (postSkillsAccept now req authDb None)) = 400%nat
         \/ postSkillsAccept now req authDb None
            = (Json 500 [("error", "Internal server error")], None))
        /\ (statusCode (fst (postSkillsReject now req authDb None)) = 400%nat
            \/ postSkillsReject now req authDb None
               = (Json 500 [("error", "Internal server error")], None))).
Proof.
  unfold postSkillsAccept, postSkillsReject.
  destruct (authenticateAdmin req authDb) as [r|fac];
    [by repeat split; try right; try discriminate|].
  split; [|split].
  - destruct (acceptDocument_cases now (body req)) as [(r & _ & Hr)|(m & sid & u & _ & Hr)];
      rewrite Hr; [by right|].
    destruct db as [st|]; [|by right].
    destruct (findOneAndUpdate _ _ _) as [[? ?]|]; [by left | by right].
  - destruct (rejectDocument_cases now (body req)) as [(r & _ & Hr)|(m & sid & u & _ & Hr)];
      rewrite Hr; [by right|].
    destruct db as [st|]; [|by right].
    destruct (findOneAndUpdate _ _ _) as [[? ?]|]; [by left | by right].
  - intros _ _. split.
    + destruct (acceptDocument_cases now (body req)) as [(r & Hc & Hr)|(m & sid & u & _ & Hr)];
        rewrite Hr; [by left | by right].
    + destruct (rejectDocument_cases now (body req)) as [(r & Hc & Hr)|(m & sid & u & _ & Hr)];
        rewrite Hr; [by left | by right].
Qed.

Lemma review_changes_only_on_success_witness :
  @postSkillsAccept Demo.node (Some 200) (Demo.adminRequest (Demo.reviewBody None))
    (Some Demo.store) None
  = (Json 500 [("error", "Internal server error")], None).
Proof.
  destruct (proj2 (proj2 (@review_changes_only_on_success Demo.node (Some 200)
                            (Demo.adminRequest (Demo.reviewBody None)) (Some Demo.store) None))
              Demo.teacher eq_refl) as [[Hbad | Hfail] _].
  - vm_compute in Hbad. discriminate Hbad.
  - exact Hfail.
Defined.

(** X2.  Whatever a review request holds, the store after it has the
    same students, faculty and academic records, and collection by
    collection the same submissions in the same order: only the status,
    the description and the update time of a submission can differ.
    No review adds, removes, moves or re-owns a document. *)
Theorem review_touches_review_fields_only `{Runtime}
    (now : option Z) (req : Request) (authDb : Db) (st : Store) :
  (exists st', snd (postSkillsAccept now req authDb (Some st)) = Some st'
               /\ sameButReviews st st')
  /\ (exists st', snd (postSkillsReject now req authDb (Some st)) = Some st'
                  /\ sameButReviews st st').
Proof.
  unfold postSkillsAccept, postSkillsReject.
  destruct (authenticateAdmin req authDb) as [r|_];
    [split; exists st; split; try reflexivity; apply sameButReviews_refl|].
  split.
  - destruct (acceptDocument_cases now (body req)) as [(r & _ & Hr)|(m & sid & u & _ & Hr)];
      rewrite Hr; [exists st; split; [reflexivity | apply sameButReviews_refl]|].
    destruct (findOneAndUpdate _ _ _) as [[d l']|] eqn:Hf;
      [|exists st; split; [reflexivity | apply sameButReviews_refl]].
    eexists; split; [reflexivity|].
    apply sameButReviews_setDocuments.
    by apply findOneAndUpdate_sameSubmission in Hf as [Hf _].
  - destruct (rejectDocument_cases now (body req)) as [(r & _ & Hr)|(m & sid & u & _ & Hr)];
      rewrite Hr; [exists st; split; [reflexivity | apply sameButReviews_refl]|].
    destruct (findOneAndUpdate _ _ _) as [[d l']|] eqn:Hf;
      [|exists st; split; [reflexivity | apply sameButReviews_refl]].
    eexists; split; [reflexivity|].
    apply sameButReviews_setDocuments.
    by apply findOneAndUpdate_sameSubmission in Hf as [Hf _].
Qed.

(** X3.  The answer of a review route does not depend on the review
    state of the stored submissions: on two stores that differ only in
    statuses, descriptions and update times the same request gets the
    same response, at whatever time.  So a document that was accepted or
    rejected before is accepted or rejected again like a pending one. *)
Theorem review_ignores_current_status `{Runtime}
    (now : option Z) (req : Request) (a1 a2 st1 st2 : Store) :
  sameButReviews a1 a2 ->
  sameButReviews st1 st2 ->
  fst (postSkillsAccept now req (Some a1) (Some st1))
  = fst (postSkillsAccept now req (Some a2) (Some st2))
  /\ fst (postSkillsReject now req (Some a1) (Some st1))
     = fst (postSkillsReject now req (Some a2) (Some st2)).
Proof.
  intros (_ & Hfac & _ & _) (_ & _ & _ & Hdocs).
  unfold postSkillsAccept, postSkillsReject.
  rewrite (authenticateAdmin_faculties req a1 a2 Hfac).
  destruct (authenticateAdmin req (Some a2)) as [r|_]; [done|].
  split.
  - destruct (acceptDocument_cases now (body req)) as [(r & _ & Hr)|(m & sid & u & _ & Hr)];
      rewrite !Hr; [done|].
    pose proof (findOneAndUpdate_found_alike sid "url" u (Doc.review accepted None now)
                  _ _ (Hdocs m)) as Hiff.
    destruct (findOneAndUpdate _ _ (documents m st1)) as [[? ?]|],
             (findOneAndUpdate _ _ (documents m st2)) as [[? ?]|]; try done;
      [by destruct Hiff as [_ Hc]; specialize (Hc eq_refl)
      |by destruct Hiff as [Hc _]; specialize (Hc eq_refl)].
  - destruct (rejectDocument_cases now (body req)) as [(r & _ & Hr)|(m & sid & u & _ & Hr)];
      rewrite !Hr; [done|].
    pose proof (findOneAndUpdate_found_alike sid "url" u
                  (Doc.review rejected (Body.description (body req)) now) _ _ (Hdocs m)) as Hiff.
    destruct (findOneAndUpdate _ _ (documents m st1)) as [[u1 ?]|] eqn:H1,
             (findOneAndUpdate _ _ (documents m st2)) as [[u2 ?]|] eqn:H2; try done;
      [|by destruct Hiff as [_ Hc]; specialize (Hc eq_refl)
       |by destruct Hiff as [Hc _]; specialize (Hc eq_refl)].
    apply findOneAndUpdate_sameSubmission in H1 as [_ [d1 ->]].
    apply findOneAndUpdate_sameSubmission in H2 as [_ [d2 ->]].
    reflexivity.
Qed.

Lemma review_ignores_current_status_witness :
  fst (@postSkillsReject Demo.node (Some 300) (Demo.rejectRequest "blurred scan")
         (Some (Demo.reviewed accepted None (Some 200)))
         (Some (Demo.reviewed accepted None (Some 200))))
  = fst (@postSkillsReject Demo.node (Some 300) (Demo.rejectRequest "blurred scan")
           (Some Demo.store) (Some Demo.store)).
Proof.
  assert (Hsame : sameButReviews (Demo.reviewed accepted None (Some 200)) Demo.store)
    by (repeat split; intros m; destruct m; vm_compute; repeat constructor).
  exact (proj2 (@review_ignores_current_status Demo.node (Some 300)
                  (Demo.rejectRequest "blurred scan")
                  (Demo.reviewed accepted None (Some 200)) Demo.store
                  (Demo.reviewed accepted None (Some 200)) Demo.store Hsame Hsame)).
Defined.

Lemma pending_count_insert (l : list Doc.t) (i : nat) (d d' : Doc.t) :
  l !! i = Some d -> is_pending d -> ~ is_pending d' ->
  S (length (filter is_pending (<[i := d']> l))) = length (filter is_pending l).
Proof.
  revert i. induction l as [|x l IH]; intros i Hi Hd Hd'; [done|].
  destruct i as [|i]; simpl in *.
  - injection Hi as ->. rewrite (filter_cons_True is_pending d l) by done.
    by rewrite (filter_cons_False is_pending d' l).
  - rewrite !(filter_cons is_pending). destruct (decide (is_pending x)); simpl;
      by rewrite <- (IH i Hi Hd Hd').
Qed.

(** X4.  When an accept is answered 200 and the document it rewrote
    was pending (and is not an extracurricular one, which the queue
    never lists), the admin snapshot computed afterwards has exactly one
    item fewer. *)
Theorem accepted_document_leaves_queue `{Runtime}
    (now : option Z) (req : Request) (authDb : Db) (st st' : Store)
    (f : list (string * string)) (m : Model) (i : nat) (d : Doc.t) :
  postSkillsAccept now req authDb (Some st) = (Json 200 f, Some st') ->
  documents m st !! i = Some d ->
  documents m st' !! i <> Some d ->
  Doc.status d = pending ->
  m <> MExtracurriculam ->
  S (pend_totalCount (fetchPendingDocuments st')) = pend_totalCount (fetchPendingDocuments st).
Proof.
  intros Hres Hd Hne Hpend Hm.
  assert (Hsame : st' = st -> False) by (intros ->; by rewrite Hd in Hne).
  unfold postSkillsAccept in Hres.
  destruct (authenticateAdmin req authDb) as [r|_];
    [injection Hres as _ <-; by destruct Hsame|].
  destruct (acceptDocument_cases now (body req)) as [(r & _ & Hr)|(m0 & sid & u & Hst & Hr)];
    rewrite Hr in Hres; [injection Hres as _ <-; by destruct Hsame|].
  rewrite findOneAndUpdate_first in Hres.
  destruct (list_find _ (documents m0 st)) as [[i0 d0]|] eqn:Hfind;
    [|injection Hres as _ <-; by destruct Hsame].
  injection Hres as _ <-.
  apply list_find_Some in Hfind as (Hd0 & _ & _).
  destruct (documents_setDocuments m0 (<[i0 := Doc.review accepted None now d0]> (documents m0 st))
              st Hst) as (Hown & Hother & _).
  assert (Hdec : m = m0 \/ m <> m0) by (destruct m, m0; (by left) || (by right)).
  destruct Hdec as [->|Hmm]; [|by rewrite (Hother m Hmm) in Hne].
  rewrite Hown in Hne.
  destruct (decide (i = i0)) as [->|Hii];
    [|by rewrite list_lookup_insert_ne in Hne by done].
  rewrite Hd in Hd0. injection Hd0 as <-.
  rewrite !pending_total, !filter_app, !length_app.
  assert (Hcount := pending_count_insert (documents m0 st) i0 d
                      (Doc.review accepted None now d) Hd Hpend ltac:(by intros ?)).
  destruct m0; try discriminate Hst; try done; simpl in *; lia.
Qed.

Lemma accepted_document_leaves_queue_witness :
  S (pend_totalCount (@fetchPendingDocuments Demo.node (Demo.reviewed accepted None (Some 200))))
  = pend_totalCount (@fetchPendingDocuments Demo.node Demo.store).
Proof.
  apply (@accepted_document_leaves_queue Demo.node (Some 200)
           (Demo.adminRequest (Demo.reviewBody None)) (Some Demo.store) Demo.store
           (Demo.reviewed accepted None (Some 200))
           [("message", "successfully accepted")] MSkill 1%nat
           (Demo.skillDoc "k1" "S001" pending 100)).
  - reflexivity.
  - reflexivity.
  - vm_compute. discriminate.
  - reflexivity.
  - discriminate.
Defined.

(** ** From the queue to the review routes *)

Section QueueToReview.
Context `{Runtime}.

(** Every item of the admin snapshot presents a pending document of
    one of the four collections, under a type name that the review
    routes resolve to that collection. *)
Lemma queue_item_origin (st : Store) (p : PendingDocument) :
  p ∈ pend_documents (fetchPendingDocuments st) ->
  exists m d,
    d ∈ documents m st /\ Doc.status d = pending /\ pd_doc p = absolute d
    /\ schema_path m "status" = true /\ m <> MExtracurriculam
    /\ documentType p <> ""
    /\ resolveModel (JS.toLowerCase (JS.trim (documentType p))) = Some (IsModel m).
Proof.
  intros Hp.
  assert (Ht : (documentType p, pd_doc p) ∈ taggedPending st).
  { rewrite <- pending_documents_tagged. apply list_elem_of_In, in_map_iff.
    exists p. split; [done|]. by apply list_elem_of_In. }
  unfold taggedPending in Ht. rewrite !elem_of_app, !list_elem_of_In, !in_map_iff in Ht.
  destruct Ht as [(d & Heq & Hd)|[(d & Heq & Hd)|[(d & Heq & Hd)|(d & Heq & Hd)]]];
    injection Heq as Hty Hdoc;
    apply list_elem_of_In, list_elem_of_filter in Hd as [Hpend Hd];
    rewrite <- Hty;
    [exists MActivities, d | exists MInterned, d | exists MCompany, d | exists MSkill, d];
    repeat split; try done.
Qed.

Lemma replace_Bearer (token : string) : JS.replace "Bearer " "" ("Bearer " +:+ token) = token.
Proof. destruct token; by vm_compute. Qed.

Lemma postRequest_bearer (token : string) (b : Body.t) :
  token <> "" -> bearerToken (postRequest token b) = Some token.
Proof.
  intros Hne. unfold bearerToken, postRequest.
  cbn [header_Authorization query_token fmap option_fmap option_map].
  rewrite replace_Bearer, truthy_Some by done. reflexivity.
Qed.

End QueueToReview.

(** X5.  Every item of the admin snapshot that has a location can be
    accepted from the requests page: the request the page builds for it
    (the owner, the absolute location and the type name of the item)
    is answered 200 by the accept route, provided the admin's token is
    valid and normalising the absolute location gives back the stored
    one. *)
Theorem queue_item_is_reviewable `{Runtime}
    (now : option Z) (authDb : Db) (st : Store) (p : PendingDocument) (token : string)
    (faculty : Faculty.t) :
  p ∈ pend_documents (fetchPendingDocuments st) ->
  authenticateAdmin (postRequest token Body.empty) authDb = inr faculty ->
  Doc.sid (pd_doc p) <> "" ->
  Doc.url (pd_doc p) <> None ->
  (forall u, Doc.url (pd_doc p) = Some ("http://localhost:" +:+ port +:+ u) ->
             docurlOf ("http://localhost:" +:+ port +:+ u) = u) ->
  exists b,
    handleRequestAction (Some token) false p accepted None
      = [Post "/api/skills/accept" token b]
    /\ fst (postSkillsAccept now (postRequest token b) authDb (Some st))
       = Json 200 [("message", "successfully accepted")].
Proof.
  intros Hp Ha Hsid Hsome Hnorm.
  assert (Htok : token <> "").
  { intros ->. unfold authenticateAdmin in Ha. by vm_compute in Ha. }
  destruct (queue_item_origin st p Hp) as (m & d & Hd & _ & Hdoc & Hst & _ & Hty & Hres).
  eexists. split.
  { unfold handleRequestAction. rewrite truthy_Some by done. reflexivity. }
  assert (Ha' : forall b0, authenticateAdmin (postRequest token b0) authDb = inr faculty)
    by (intros b0; exact Ha).
  unfold postSkillsAccept. rewrite Ha'. cbn [body postRequest].
  rewrite Hdoc in Hsid, Hsome, Hnorm |- *. cbn [absolute Doc.with_url Doc.sid Doc.url] in *.
  destruct (Doc.url d) as [u|] eqn:Hu; [|done]. cbn [fullUrl] in *.
  destruct (String.eqb_spec u ""); [done|].
  specialize (Hnorm u eq_refl).
  rewrite (acceptDocument_effect now _ st m (Doc.sid d) ("http://localhost:" +:+ port +:+ u)
             (documentType p)); try done.
  rewrite Hnorm.
  destruct (list_find _ (documents m st)) as [[i x]|] eqn:Hfind; [done|].
  exfalso. eapply list_find_None in Hfind. rewrite Forall_forall in Hfind.
  by apply (Hfind d Hd).
Qed.

Lemma queue_item_is_reviewable_witness :
  exists b,
    handleRequestAction (Some "tok-admin") false Scenario.queueItem accepted None
      = [Post "/api/skills/accept" "tok-admin" b]
    /\ fst (@postSkillsAccept Demo.node (Some 200) (postRequest "tok-admin" b)
              (Some Demo.store) (Some Demo.store))
       = Json 200 [("message", "successfully accepted")].
Proof.
  apply (@queue_item_is_reviewable Demo.node (Some 200) (Some Demo.store) Demo.store
           Scenario.queueItem "tok-admin" Demo.teacher).
  - vm_compute. apply list_elem_of_singleton. reflexivity.
  - reflexivity.
  - discriminate.
  - discriminate.
  - intros u Hu. vm_compute in Hu. injection Hu as <-. reflexivity.
Defined.

(** X6.  An item of the queue that has no location cannot be reviewed
    from the page: the request the page builds for it carries no
    location, and both review routes refuse it with 400 for missing
    fields, leaving the store as it is. *)
Theorem unattached_item_is_unreviewable `{Runtime}
    (now : option Z) (p : PendingDocument) (token reason : string) (db : Db) :
  Doc.url (pd_doc p) = None ->
  token <> "" ->
  JS.trim reason <> "" ->
  (exists b,
     handleRequestAction (Some token) false p accepted None
       = [Post "/api/skills/accept" token b]
     /\ acceptDocument now b db
        = (Json 400 [("error", "Missing required fields: sid, docurl, documentype")], db))
  /\ (exists b,
        handleRequestAction (Some token) false p rejected (Some reason)
          = [Post "/api/skills/reject" token b]
        /\ rejectDocument now b db
           = (Json 400 [("error", "Missing required fields: sid, url (or docurl), documentType, description")],
              db)).
Proof.
  intros Hu Htok Hreason. split; eexists; split.
  - unfold handleRequestAction. rewrite truthy_Some by done. reflexivity.
  - unfold acceptDocument, docurlRaw. cbn [Body.docurl Body.docUrl Body.url JS.nullish].
    rewrite Hu. cbn [JS.truthy negb]. by rewrite orb_true_r.
  - unfold handleRequestAction. rewrite truthy_Some by done. cbn [negb].
    rewrite bool_decide_eq_true_2 by done.
    destruct (String.eqb_spec (JS.trim reason) ""); [done|]. reflexivity.
  - unfold rejectDocument, docurlRaw. cbn [Body.docurl Body.docUrl Body.url JS.nullish].
    rewrite Hu. cbn [JS.truthy negb]. by rewrite orb_true_r.
Qed.

Lemma unattached_item_is_unreviewable_witness :
  exists b,
    handleRequestAction (Some "tok-admin") false Scenario.unattached accepted None
      = [Post "/api/skills/accept" "tok-admin" b]
    /\ @acceptDocument Demo.node (Some 200) b (Some Demo.store)
       = (Json 400 [("error", "Missing required fields: sid, docurl, documentype")],
          Some Demo.store).
Proof.
  refine (proj1 (@unattached_item_is_unreviewable Demo.node (Some 200) Scenario.unattached
                   "tok-admin" "blurred scan" (Some Demo.store) _ _ _)).
  - reflexivity.
  - discriminate.
  - vm_compute. discriminate.
Defined.

(** ** Document submission *)

(** Whatever the variant, the fields it adds leave the identity, the
    owner, the location, the status and the time of the document alone. *)
Lemma documentFields_keeps (key : string) (b : Form.t) (file : option string)
    (fill : Doc.t -> Doc.t) (d : Doc.t) :
  documentFields key b file = inr fill ->
  Doc._id (fill d) = Doc._id d /\ Doc.sid (fill d) = Doc.sid d
  /\ Doc.url (fill d) = Doc.url d /\ Doc.status (fill d) = Doc.status d
  /\ (Doc.createdAt (fill d) = Doc.createdAt d /\ Doc.updatedAt (fill d) = Doc.updatedAt d).
Proof.
  unfold documentFields. intros Hf.
  repeat match type of Hf with
         | context [if ?c then _ else _] => destruct c
         end; try discriminate Hf; injection Hf as <-; done.
Qed.

Lemma assoc_schemaMap_key (key : string) (m : Model) :
  assoc key schemaMap = Some m -> key <> "extracurriculam" -> m <> MExtracurriculam.
Proof.
  unfold assoc, schemaMap. cbn [List.find fst].
  repeat match goal with
         | |- context [String.eqb ?a key] =>
             destruct (String.eqb_spec a key) as [<-|?];
             [cbn [fmap option_fmap option_map snd]; intros [= <-] Hk;
              try (by destruct Hk); by intros ?|]
         end.
  intros Hn. discriminate Hn.
Qed.

Lemma assoc_schemaMap_status (key : string) (m : Model) :
  assoc key schemaMap = Some m -> schema_path m "status" = true.
Proof.
  unfold assoc, schemaMap. cbn [List.find fst].
  repeat match goal with
         | |- context [String.eqb ?a key] =>
             destruct (String.eqb_spec a key) as [<-|?];
             [cbn [fmap option_fmap option_map snd]; by intros [= <-]|]
         end.
  intros Hn. discriminate Hn.
Qed.

Section SubmitFacts.
Context `{Runtime}.

Lemma submitDocument_inv (student : Student.t) (b : Form.t) (file : option string)
    (newId : string) (stamp : option Z) (db db' : Db) (disk disk' : list string)
    (msg ty : string) (doc : Doc.t) (fn : option string) :
  submitDocument student b file newId stamp db disk = (Submitted msg ty doc fn, db', disk') ->
  exists st m,
    db = Some st /\ Form.key b = Some ty /\ assoc ty schemaMap = Some m
    /\ fn = file /\ disk' = disk
    /\ Doc.sid doc = Student.sid student /\ Doc.status doc = pending
    /\ Doc._id doc = newId
    /\ (Doc.createdAt doc = stamp /\ Doc.updatedAt doc = stamp)
    /\ Doc.url doc = (fun n => "/uploads/" +:+ n) <$> fn
    /\ db' = Some (setDocuments m (documents m st ++ [doc])%list st).
Proof.
  unfold submitDocument. intros Hs.
  destruct (Form.key b) as [key|]; [|discriminate Hs].
  destruct (String.eqb key ""); [discriminate Hs|].
  destruct (assoc key schemaMap) as [m|] eqn:Hm.
  - destruct (documentFields key b file) as [r|fill] eqn:Hfill; [discriminate Hs|].
    destruct db as [st|]; [|discriminate Hs].
    injection Hs as <- <- <- <- <- <-.
    destruct (documentFields_keeps key b file fill
                (Doc.mk newId (Student.sid student)
                   (match file with Some name => Some ("/uploads/" +:+ name) | None => None end)
                   pending None stamp stamp None None None None None) Hfill)
      as (Hi & Hsid & Hu & Hst & Hc & Hup).
    exists st, m. repeat split; try done; try (rewrite Hu; by destruct file).
  - destruct (bool_decide (key ∈ objectPrototypeKeys)); [|discriminate Hs].
    destruct (documentFields key b file) as [r|fill]; [discriminate Hs|].
    destruct db; discriminate Hs.
Qed.

Lemma postSubmitDocument_inv (req : Request) (b : Form.t) (f : option Upload.t)
    (newId : string) (stamp : option Z) (authDb db db' : Db) (disk disk' : list string)
    (msg ty : string) (doc : Doc.t) (fn : option string) :
  postSubmitDocument req b f newId stamp authDb db disk = (Submitted msg ty doc fn, db', disk') ->
  exists student st m,
    authenticateStudent req authDb = inr student
    /\ db = Some st /\ Form.key b = Some ty /\ assoc ty schemaMap = Some m
    /\ Doc.sid doc = Student.sid student /\ Doc.status doc = pending
    /\ Doc._id doc = newId
    /\ (Doc.createdAt doc = stamp /\ Doc.updatedAt doc = stamp)
    /\ Doc.url doc = (fun n => "/uploads/" +:+ n) <$> fn
    /\ fn = Upload.filename <$> f
    /\ db' = Some (setDocuments m (documents m st ++ [doc])%list st).
Proof.
  unfold postSubmitDocument. intros Hs.
  destruct (authenticateStudent req authDb) as [r|student]; [discriminate Hs|].
  unfold uploadSingle in Hs.
  destruct f as [u|].
  - destruct (negb (fileFilter u) || Upload.tooLarge u); [discriminate Hs|].
    apply submitDocument_inv in Hs as (st & m & ? & ? & ? & ? & ? & ? & ? & ? & [? ?] & ? & ?).
    exists student, st, m. by repeat split.
  - apply submitDocument_inv in Hs as (st & m & ? & ? & ? & ? & ? & ? & ? & ? & [? ?] & ? & ?).
    exists student, st, m. by repeat split.
Qed.

End SubmitFacts.

(** X7.  A submission that is answered 201 has created exactly one
    document, at the end of the collection its key names: owned by the
    student of the token (the form has no say in the owner), pending,
    stamped with one time as created and updated, and located under
    /uploads/ when a file came with it.  The store afterwards is the
    store before with that one document appended. *)
Theorem submitted_document_is_own_and_pending `{Runtime}
    (req : Request) (b : Form.t) (f : option Upload.t) (newId : string) (stamp : option Z)
    (authDb db db' : Db) (disk disk' : list string)
    (msg ty : string) (doc : Doc.t) (fn : option string) :
  postSubmitDocument req b f newId stamp authDb db disk = (Submitted msg ty doc fn, db', disk') ->
  exists student st m,
    authenticateStudent req authDb = inr student
    /\ db = Some st /\ Form.key b = Some ty /\ assoc ty schemaMap = Some m
    /\ Doc.sid doc = Student.sid student /\ Doc.status doc = pending
    /\ Doc._id doc = newId
    /\ (Doc.createdAt doc = stamp /\ Doc.updatedAt doc = stamp)
    /\ Doc.url doc = (fun n => "/uploads/" +:+ n) <$> fn
    /\ fn = Upload.filename <$> f
    /\ db' = Some (setDocuments m (documents m st ++ [doc])%list st).
Proof. apply postSubmitDocument_inv. Qed.

Lemma submitted_document_is_own_and_pending_witness :
  exists student st m,
    @authenticateStudent Demo.node Scenario.studentRequest (Some Demo.store) = inr student
    /\ Some Demo.store = Some st /\ Form.key Scenario.skillForm = Some "skill"
    /\ assoc "skill" schemaMap = Some m
    /\ Doc.sid Scenario.certificate = Student.sid student
    /\ Doc.status Scenario.certificate = pending
    /\ Doc._id Scenario.certificate = "k9"
    /\ (Doc.createdAt Scenario.certificate = Some 300
        /\ Doc.updatedAt Scenario.certificate = Some 300)
    /\ Doc.url Scenario.certificate = (fun n => "/uploads/" +:+ n) <$> Some "1-cert.pdf"
    /\ Some "1-cert.pdf" = Upload.filename <$> Some (Scenario.pdf "1-cert.pdf")
    /\ Some Scenario.withCertificate
       = Some (setDocuments m (documents m st ++ [Scenario.certificate])%list st).
Proof.
  apply (@submitted_document_is_own_and_pending Demo.node Scenario.studentRequest
           Scenario.skillForm (Some (Scenario.pdf "1-cert.pdf")) "k9" (Some 300)
           (Some Demo.store) (Some Demo.store) (Some Scenario.withCertificate)
           [] ["1-cert.pdf"] "skill document submitted successfully" "skill"
           Scenario.certificate (Some "1-cert.pdf")).
  reflexivity.
Defined.

Lemma documentFields_known_key (key : string) (b : Form.t) (file : option string)
    (fill : Doc.t -> Doc.t) :
  documentFields key b file = inr fill -> exists m, assoc key schemaMap = Some m.
Proof.
  unfold documentFields. intros Hf.
  repeat match type of Hf with
         | context [String.eqb key ?a] =>
             destruct (String.eqb_spec key a) as [->|?]; [by eexists|]
         end.
  discriminate Hf.
Qed.

Lemma unlinkUpload_removes (name : string) (disk : list string) :
  name ∉ unlinkUpload (Some name) disk.
Proof.
  unfold unlinkUpload. rewrite list_elem_of_In, filter_In. intros [_ Hn].
  by rewrite String.eqb_refl in Hn.
Qed.

Section SubmitOutcomes.
Context `{Runtime}.

Lemma submitDocument_refused (student : Student.t) (b : Form.t) (file : option string)
    (newId : string) (stamp : option Z) (db db' : Db) (disk disk' : list string) (r : Response) :
  submitDocument student b file newId stamp db disk = (SubmitRefused r, db', disk') ->
  db' = db
  /\ ((statusCode r = 400%nat /\ disk' = disk)
      \/ (statusCode r = 500%nat /\ disk' = unlinkUpload file disk /\ db = None)).
Proof.
  unfold submitDocument. intros Hs.
  destruct (Form.key b) as [key|]; [|injection Hs as <- <- <-; by split; [|left]].
  destruct (String.eqb key ""); [injection Hs as <- <- <-; by split; [|left]|].
  destruct (documentFields key b file) as [r0|fill] eqn:Hfill.
  - assert (Hcode : statusCode r0 = 400%nat).
    { unfold documentFields in Hfill.
      repeat match type of Hfill with
             | context [if ?c then _ else _] => destruct c
             end; first [discriminate Hfill | by injection Hfill as <-]. }
    destruct (assoc key schemaMap) as [m|];
      [|destruct (bool_decide (key ∈ objectPrototypeKeys))];
      cbv beta iota zeta in Hs; injection Hs as <- <- <-; by split; [|left].
  - destruct (documentFields_known_key key b file fill Hfill) as [m Hm]. rewrite Hm in Hs.
    cbv beta iota zeta in Hs.
    destruct db as [st|]; [discriminate Hs|].
    injection Hs as <- <- <-. split; [done|]. by right.
Qed.

End SubmitOutcomes.

(** X8.  A submission that is refused, for whatever reason, leaves
    every collection of the store as it was. *)
Theorem refused_submission_keeps_store `{Runtime}
    (req : Request) (b : Form.t) (f : option Upload.t) (newId : string) (stamp : option Z)
    (authDb db db' : Db) (disk disk' : list string) (r : Response) :
  postSubmitDocument req b f newId stamp authDb db disk = (SubmitRefused r, db', disk') ->
  db' = db.
Proof.
  unfold postSubmitDocument. intros Hs.
  destruct (authenticateStudent req authDb) as [r0|student]; [by injection Hs as _ <- _|].
  destruct (uploadSingle f disk) as [[file disk0]|]; [|by injection Hs as _ <- _].
  by apply submitDocument_refused in Hs as [-> _].
Qed.

Lemma refused_submission_keeps_store_witness :
  snd (fst (@postSubmitDocument Demo.node Scenario.studentRequest Scenario.skillForm None
              "k9" (Some 300) (Some Demo.store) (Some Demo.store) []))
  = Some Demo.store.
Proof.
  refine (@refused_submission_keeps_store Demo.node Scenario.studentRequest Scenario.skillForm
            None "k9" (Some 300) (Some Demo.store) (Some Demo.store) _ [] _ _ _).
  reflexivity.
Defined.

(** X9.  What becomes of a stored upload when the submission is
    refused after it: a refusal for a missing field, a missing or
    unknown key or a wrong company type (400) leaves the file in the
    uploads directory, although no document refers to it; only the
    failure of the store (500) deletes it. *)
Theorem refused_submission_upload_fate `{Runtime}
    (req : Request) (b : Form.t) (u : Upload.t) (newId : string) (stamp : option Z)
    (authDb db db' : Db) (disk disk' : list string) (r : Response) (student : Student.t) :
  authenticateStudent req authDb = inr student ->
  fileFilter u = true ->
  Upload.tooLarge u = false ->
  postSubmitDocument req b (Some u) newId stamp authDb db disk = (SubmitRefused r, db', disk') ->
  (statusCode r = 400%nat /\ disk' = Upload.filename u :: disk)
  \/ (statusCode r = 500%nat /\ (Upload.filename u ∉ disk') /\ db = None).
Proof.
  intros Ha Hf Hl. unfold postSubmitDocument, uploadSingle. rewrite Ha, Hf, Hl. cbn [negb orb].
  intros Hs. apply submitDocument_refused in Hs as [_ [[Hc ->]|(Hc & -> & ->)]]; [by left|].
  right. repeat split; [done|]. apply unlinkUpload_removes.
Qed.

Lemma refused_submission_upload_fate_witness :
  snd (@postSubmitDocument Demo.node Scenario.studentRequest
         (Scenario.activityForm "curricular") (Some (Scenario.pdf "3-meet.pdf"))
         "a9" (Some 300) (Some Demo.store) (Some Demo.store) [])
  = ["3-meet.pdf"].
Proof.
  destruct (@refused_submission_upload_fate Demo.node Scenario.studentRequest
              (Scenario.activityForm "curricular") (Scenario.pdf "3-meet.pdf")
              "a9" (Some 300) (Some Demo.store) (Some Demo.store) (Some Demo.store)
              [] ["3-meet.pdf"]
              (Json 400 [("error", "Invalid document key. Allowed values: curriculam, extracurriculam, internship, placement, skill")])
              Demo.studentA eq_refl eq_refl eq_refl eq_refl) as [[_ Hd]|(Hc & _)].
  - reflexivity.
  - discriminate Hc.
Defined.

Section AfterSubmission.
Context `{Runtime}.

Lemma ownDocuments_Permutation (sid : string) (l : list Doc.t) :
  ownDocuments sid l ≡ₚ map absolute (filter (fun d => Doc.sid d = sid) l).
Proof. unfold ownDocuments. by rewrite sort_Permutation. Qed.

Lemma ownDocuments_snoc (l : list Doc.t) (doc : Doc.t) :
  length (ownDocuments (Doc.sid doc) (l ++ [doc])) = S (length (ownDocuments (Doc.sid doc) l))
  /\ absolute doc ∈ ownDocuments (Doc.sid doc) (l ++ [doc]).
Proof.
  rewrite !ownDocuments_Permutation, filter_app, map_app, length_app.
  rewrite (filter_cons_True _ doc []) by done. simpl. split; [lia|].
  apply elem_of_app. right. apply list_elem_of_singleton. reflexivity.
Qed.

Lemma documents_after_append (m : Model) (st : Store) (doc : Doc.t) (ty : string) :
  assoc ty schemaMap = Some m ->
  documents m (setDocuments m (documents m st ++ [doc])%list st) = (documents m st ++ [doc])%list
  /\ pend_totalCount
       (fetchPendingDocuments (setDocuments m (documents m st ++ [doc])%list st))
     = (length (filter is_pending
                  (match m with MExtracurriculam => [] | _ => [doc] end))
        + pend_totalCount (fetchPendingDocuments st))%nat.
Proof.
  intros Hm.
  pose proof (assoc_schemaMap_status ty m Hm) as Hst.
  split; [by apply documents_setDocuments|].
  rewrite !pending_total.
  destruct m; try discriminate Hst; simpl;
    rewrite ?filter_app, ?length_app; simpl; lia.
Qed.

End AfterSubmission.

(** X10.  A submitted document shows up where its owner looks: in the
    owner's list of the collection (the body the list routes and the
    skills and curricular streams share) there is one entry more than
    before, and the new document, with its location made absolute, is
    among them. *)
Theorem submitted_document_reaches_owner `{Runtime}
    (req : Request) (b : Form.t) (f : option Upload.t) (newId : string) (stamp : option Z)
    (authDb db : Db) (st' : Store) (disk disk' : list string)
    (msg ty : string) (doc : Doc.t) (fn : option string) :
  postSubmitDocument req b f newId stamp authDb db disk
    = (Submitted msg ty doc fn, Some st', disk') ->
  exists st m,
    db = Some st /\ assoc ty schemaMap = Some m
    /\ length (ownDocuments (Doc.sid doc) (documents m st'))
       = S (length (ownDocuments (Doc.sid doc) (documents m st)))
    /\ absolute doc ∈ ownDocuments (Doc.sid doc) (documents m st')
    /\ (ty = "skill" ->
        docs_totalCount (fetchStudentSkills (Doc.sid doc) st')
        = S (docs_totalCount (fetchStudentSkills (Doc.sid doc) st)))
    /\ (ty = "curriculam" ->
        docs_totalCount (fetchStudentCurricular (Doc.sid doc) st')
        = S (docs_totalCount (fetchStudentCurricular (Doc.sid doc) st))).
Proof.
  intros Hs.
  apply postSubmitDocument_inv in Hs
    as (student & st & m & _ & -> & _ & Hm & _ & _ & _ & _ & _ & _ & [= ->]).
  destruct (documents_after_append m st doc ty Hm) as [Hdocs _].
  destruct (ownDocuments_snoc (documents m st) doc) as [Hlen Hin].
  exists st, m. rewrite Hdocs. repeat split; try done.
  - intros ->. injection Hm as <-. exact Hlen.
  - intros ->. injection Hm as <-. exact Hlen.
Qed.

Lemma submitted_document_reaches_owner_witness :
  docs_totalCount (@fetchStudentSkills Demo.node "S001" Scenario.withCertificate)
  = S (docs_totalCount (@fetchStudentSkills Demo.node "S001" Demo.store)).
Proof.
  destruct (@submitted_document_reaches_owner Demo.node Scenario.studentRequest
              Scenario.skillForm (Some (Scenario.pdf "1-cert.pdf")) "k9" (Some 300)
              (Some Demo.store) (Some Demo.store) Scenario.withCertificate
              [] ["1-cert.pdf"] "skill document submitted successfully" "skill"
              Scenario.certificate (Some "1-cert.pdf") eq_refl)
    as (st & m & [= <-] & _ & _ & _ & Hskill & _).
  exact (Hskill eq_refl).
Defined.

(** X11.  A submitted document joins the admin queue, whose total count
    grows by one, unless it is an extracurricular activity: that one is
    stored as pending like the others and leaves the queue as it was. *)
Theorem submitted_document_reaches_queue `{Runtime}
    (req : Request) (b : Form.t) (f : option Upload.t) (newId : string) (stamp : option Z)
    (authDb db : Db) (st' : Store) (disk disk' : list string)
    (msg ty : string) (doc : Doc.t) (fn : option string) :
  postSubmitDocument req b f newId stamp authDb db disk
    = (Submitted msg ty doc fn, Some st', disk') ->
  exists st,
    db = Some st /\ Doc.status doc = pending
    /\ pend_totalCount (fetchPendingDocuments st')
       = ((if String.eqb ty "extracurriculam" then 0 else 1)
          + pend_totalCount (fetchPendingDocuments st))%nat.
Proof.
  intros Hs.
  apply postSubmitDocument_inv in Hs
    as (student & st & m & _ & -> & _ & Hm & _ & Hpend & _ & _ & _ & _ & [= ->]).
  destruct (documents_after_append m st doc ty Hm) as [_ Hcount].
  exists st. repeat split; [done|]. rewrite Hcount.
  destruct (String.eqb_spec ty "extracurriculam") as [->|Hne].
  - injection Hm as <-. reflexivity.
  - pose proof (assoc_schemaMap_key ty m Hm Hne) as Hm'.
    destruct m; try done; by rewrite (filter_cons_True is_pending doc []).
Qed.

Lemma submitted_document_reaches_queue_witness :
  pend_totalCount (@fetchPendingDocuments Demo.node Scenario.withCertificate)
  = (1 + pend_totalCount (@fetchPendingDocuments Demo.node Demo.store))%nat.
Proof.
  destruct (@submitted_document_reaches_queue Demo.node Scenario.studentRequest
              Scenario.skillForm (Some (Scenario.pdf "1-cert.pdf")) "k9" (Some 300)
              (Some Demo.store) (Some Demo.store) Scenario.withCertificate
              [] ["1-cert.pdf"] "skill document submitted successfully" "skill"
              Scenario.certificate (Some "1-cert.pdf") eq_refl)
    as (st & [= <-] & _ & Hcount).
  exact Hcount.
Defined.

(** X12.  The submission form and the route agree on attachments.  Each
    achievement type of the form maps to a key the route knows; with
    the form's required fields filled in (and a company type from the
    form's two options), a submission with a file passes the route's
    checks for every type, and one without a file is refused exactly for
    the types the form marks as requiring a PDF. *)
Theorem form_and_route_agree_on_files (t : AchievementType) (b : Form.t) (name : string) :
  Forall (fun n => JS.truthy (formField n b) = true) (fst (getFormFields t)) ->
  (In "companytype" (fst (getFormFields t)) ->
   Form.companytype b = Some "government" \/ Form.companytype b = Some "private") ->
  (exists m, assoc (achievementKey t) schemaMap = Some m)
  /\ (exists fill, documentFields (achievementKey t) b (Some name) = inr fill)
  /\ (snd (getFormFields t) = true <->
      exists r, documentFields (achievementKey t) b None = inl r).
Proof.
  intros Hreq Htype.
  split; [destruct t; by eexists|].
  destruct t; cbn [getFormFields fst snd achievementKey] in *;
    repeat match goal with
           | Hf : Forall _ (_ :: _) |- _ => apply Forall_cons in Hf as [? Hf]
           end;
    cbn [formField String.eqb Ascii.eqb Bool.eqb] in *;
    unfold documentFields; cbn [String.eqb Ascii.eqb Bool.eqb];
    repeat match goal with
           | Ht : JS.truthy ?x = true |- _ => rewrite Ht; clear Ht
           end;
    cbn [negb orb].
  - assert (Hk : bool_decide (Form.companytype b = Some "government")
                 || bool_decide (Form.companytype b = Some "private") = true)
      by (destruct Htype as [->| ->]; [by right; right; left | by vm_compute..]).
    rewrite Hk. cbn [negb]. split; [by eexists|]. split; [intros _; by eexists | done].
  - split; [by eexists|]. split; [done|]. by intros [r Hr].
  - split; [by eexists|]. split; [done|]. by intros [r Hr].
  - assert (Hk : bool_decide (Form.companytype b = Some "government")
                 || bool_decide (Form.companytype b = Some "private") = true)
      by (destruct Htype as [->| ->]; [by right; left | by vm_compute..]).
    rewrite Hk. cbn [negb]. split; [by eexists|]. split; [intros _; by eexists | done].
  - split; [by eexists|]. split; [intros _; by eexists | done].
Qed.

Lemma form_and_route_agree_on_files_witness :
  (exists fill, documentFields "skill" Scenario.skillForm (Some "1-cert.pdf") = inr fill)
  /\ (true = true <-> exists r, documentFields "skill" Scenario.skillForm None = inl r).
Proof.
  refine (proj2 (form_and_route_agree_on_files skill Scenario.skillForm "1-cert.pdf" _ _)).
  - repeat constructor.
  - intros [Hc|[]]. discriminate Hc.
Defined.

(** ** Academic records *)

Section AcademicsFacts.
Context `{Runtime}.
Variable parseFloat : string -> option Q.

Lemma uploadAcademics_inv (b : Marks.t) (file : option string) (newId : string)
    (stamp : option Z) (db db' : Db) (disk disk' : list string)
    (rec : Academic.t) (name : string) :
  uploadAcademics parseFloat b file newId stamp db disk = (Uploaded rec name, db', disk') ->
  exists st student,
    db = Some st /\ file = Some name /\ disk' = disk
    /\ student ∈ Students st /\ Student.sid student = Academic.sid rec
    /\ Marks.sid b = Some (Academic.sid rec)
    /\ 1 <= Academic.sem rec <= 8
    /\ parseInt (default "" (Marks.sem b)) = Some (Academic.sem rec)
    /\ Academic._id rec = newId
    /\ Academic.url rec = Some ("/uploads/" +:+ name)
    /\ db' = Some (mkStore (Students st) (Faculties st) (GPA st ++ [rec])%list
                     (Activities st) (Extracurriculam st) (Interned st)
                     (Company st) (Skill st)).
Proof.
  unfold uploadAcademics. intros Hu.
  destruct (negb (JS.truthy (Marks.sid b)) || negb (JS.truthy (Marks.gpa b))
            || negb (JS.truthy (Marks.sem b))) eqn:Hfields; [discriminate Hu|].
  destruct file as [name0|]; [|discriminate Hu].
  destruct (parseInt (default "" (Marks.sem b))) as [n|] eqn:Hsem.
  - destruct ((n <? 1) || (8 <? n)) eqn:Hrange; [discriminate Hu|].
    destruct db as [st|]; [|discriminate Hu].
    destruct (List.find _ (Students st)) as [student|] eqn:Hfind; [|discriminate Hu].
    destruct (parseFloat _) as [g|]; [|discriminate Hu].
    injection Hu as <- <- <- <-.
    apply find_some in Hfind as [Hin Heq]. apply String.eqb_eq in Heq.
    apply orb_false_elim in Hrange as [H1 H8].
    apply Z.ltb_ge in H1. apply Z.ltb_ge in H8.
    exists st, student. cbn [Academic.sid Academic.sem Academic._id Academic.url].
    repeat split; try done.
    + by apply list_elem_of_In.
    + destruct (Marks.sid b) as [s|]; [done|]. discriminate Hfields.
  - destruct db as [st|]; [|discriminate Hu].
    destruct (List.find _ (Students st)); discriminate Hu.
Qed.

Lemma uploadAcademics_refused (b : Marks.t) (file : option string) (newId : string)
    (stamp : option Z) (db db' : Db) (disk disk' : list string) (r : Response) :
  uploadAcademics parseFloat b file newId stamp db disk = (UploadRefused r, db', disk') ->
  db' = db.
Proof.
  unfold uploadAcademics. intros Hu.
  destruct (negb (JS.truthy (Marks.sid b)) || negb (JS.truthy (Marks.gpa b))
            || negb (JS.truthy (Marks.sem b))); [by injection Hu as _ <- _|].
  destruct file as [name0|]; [|by injection Hu as _ <- _].
  destruct (match parseInt (default "" (Marks.sem b)) with
            | Some n => (n <? 1) || (8 <? n)
            | None => false
            end); [by injection Hu as _ <- _|].
  destruct db as [st|]; [|by injection Hu as _ <- _].
  destruct (List.find _ (Students st)); [|by injection Hu as _ <- _].
  destruct (parseInt _); [|by injection Hu as _ <- _].
  destruct (parseFloat _); [discriminate Hu | by injection Hu as _ <- _].
Qed.

End AcademicsFacts.

(** X13.  An academics upload that is answered 201 has appended one
    record to the GPA collection and changed nothing else: the record
    is for a student who exists under that identifier, its semester is
    the number read from the form and lies between 1 and 8, and its
    location is the uploaded file under /uploads/. *)
Theorem uploaded_record_is_valid `{Runtime} (parseFloat : string -> option Q)
    (req : Request) (b : Marks.t) (f : option Upload.t) (newId : string) (stamp : option Z)
    (authDb db db' : Db) (disk disk' : list string) (rec : Academic.t) (name : string) :
  postAcademics parseFloat req b f newId stamp authDb db disk = (Uploaded rec name, db', disk') ->
  exists st student,
    db = Some st
    /\ student ∈ Students st /\ Student.sid student = Academic.sid rec
    /\ Marks.sid b = Some (Academic.sid rec)
    /\ 1 <= Academic.sem rec <= 8
    /\ parseInt (default "" (Marks.sem b)) = Some (Academic.sem rec)
    /\ Academic.url rec = Some ("/uploads/" +:+ name)
    /\ Some name = Upload.filename <$> f
    /\ db' = Some (mkStore (Students st) (Faculties st) (GPA st ++ [rec])%list
                     (Activities st) (Extracurriculam st) (Interned st)
                     (Company st) (Skill st)).
Proof.
  unfold postAcademics. intros Hp.
  destruct (authenticateAdmin req authDb) as [r|_]; [discriminate Hp|].
  unfold uploadSingle in Hp. destruct f as [u|].
  - destruct (negb (fileFilter u) || Upload.tooLarge u); [discriminate Hp|].
    apply uploadAcademics_inv in Hp
      as (st & student & ? & [= <-] & ? & ? & ? & ? & [? ?] & ? & ? & ? & ?).
    exists st, student. by repeat split.
  - apply uploadAcademics_inv in Hp
      as (st & student & ? & [=] & _).
Qed.

Lemma uploaded_record_is_valid_witness :
  1 <= Academic.sem Scenario.semesterThree <= 8
  /\ parseInt (default "" (Marks.sem (Scenario.marks " 3"))) = Some 3.
Proof.
  destruct (@uploaded_record_is_valid Demo.node Scenario.parseGpa
              (mkRequest (Some "Bearer tok-admin") None "" Body.empty)
              (Scenario.marks " 3") (Some (Scenario.pdf "2-sem3.pdf")) "g3" (Some 300)
              (Some Demo.store) (Some Demo.store)
              (Some (Demo.people [Scenario.semesterThree] [] [] [] []
                       [Demo.skillDoc "k0" "S002" accepted 50;
                        Demo.skillDoc "k1" "S001" pending 100]))
              [] ["2-sem3.pdf"] Scenario.semesterThree "2-sem3.pdf" eq_refl)
    as (st & student & _ & _ & _ & _ & Hrange & Hsem & _).
  split; [exact Hrange | exact Hsem].
Defined.

(** X14.  An academics upload that is refused, whatever the reason,
    leaves the store as it was. *)
Theorem refused_upload_keeps_store `{Runtime} (parseFloat : string -> option Q)
    (req : Request) (b : Marks.t) (f : option Upload.t) (newId : string) (stamp : option Z)
    (authDb db db' : Db) (disk disk' : list string) (r : Response) :
  postAcademics parseFloat req b f newId stamp authDb db disk = (UploadRefused r, db', disk') ->
  db' = db.
Proof.
  unfold postAcademics. intros Hp.
  destruct (authenticateAdmin req authDb) as [r0|_]; [by injection Hp as _ <- _|].
  destruct (uploadSingle f disk) as [[file disk0]|]; [|by injection Hp as _ <- _].
  by apply uploadAcademics_refused in Hp.
Qed.

Lemma refused_upload_keeps_store_witness :
  snd (fst (@postAcademics Demo.node Scenario.parseGpa
              (mkRequest (Some "Bearer tok-admin") None "" Body.empty)
              (Scenario.marks "9") (Some (Scenario.pdf "2-sem9.pdf")) "g9" (Some 300)
              (Some Demo.store) (Some Demo.store) []))
  = Some Demo.store.
Proof.
  refine (@refused_upload_keeps_store Demo.node Scenario.parseGpa
            (mkRequest (Some "Bearer tok-admin") None "" Body.empty)
            (Scenario.marks "9") (Some (Scenario.pdf "2-sem9.pdf")) "g9" (Some 300)
            (Some Demo.store) (Some Demo.store) _ [] _ _ _).
  reflexivity.
Defined.

Section AcademicsViews.
Context `{Runtime}.

Lemma academics_records_Permutation (sid : string) (st : Store) :
  ac_records (fetchStudentAcademics sid st)
  ≡ₚ map (fun r => Academic.with_url (fullUrl (Academic.url r)) r)
         (filter (fun r => Academic.sid r = sid) (GPA st)).
Proof. unfold fetchStudentAcademics; simpl. by rewrite sort_Permutation. Qed.

End AcademicsViews.

(** X15.  An uploaded record shows up in the academics snapshot of its
    student: the snapshot computed afterwards holds one record more,
    and the new record, with its location made absolute, is one of
    them. *)
Theorem uploaded_record_reaches_student `{Runtime} (parseFloat : string -> option Q)
    (req : Request) (b : Marks.t) (f : option Upload.t) (newId : string) (stamp : option Z)
    (authDb db : Db) (st' : Store) (disk disk' : list string) (rec : Academic.t)
    (name : string) :
  postAcademics parseFloat req b f newId stamp authDb db disk
    = (Uploaded rec name, Some st', disk') ->
  exists st,
    db = Some st
    /\ ac_count (fetchStudentAcademics (Academic.sid rec) st')
       = S (ac_count (fetchStudentAcademics (Academic.sid rec) st))
    /\ Academic.with_url (fullUrl (Academic.url rec)) rec
       ∈ ac_records (fetchStudentAcademics (Academic.sid rec) st').
Proof.
  intros Hp. unfold postAcademics in Hp.
  destruct (authenticateAdmin req authDb) as [r|_]; [discriminate Hp|].
  destruct (uploadSingle f disk) as [[file disk0]|]; [|discriminate Hp].
  apply uploadAcademics_inv in Hp
    as (st & student & -> & _ & _ & _ & _ & _ & _ & _ & _ & _ & [= ->]).
  exists st. split; [done|]. split.
  - unfold fetchStudentAcademics; simpl.
    rewrite !length_map, !sort_length, filter_app, length_app.
    rewrite (filter_cons_True _ rec []) by done. simpl. lia.
  - rewrite academics_records_Permutation. simpl.
    rewrite filter_app, map_app, (filter_cons_True _ rec []) by done.
    apply elem_of_app. right. apply list_elem_of_singleton. reflexivity.
Qed.

Lemma uploaded_record_reaches_student_witness :
  ac_count (@fetchStudentAcademics Demo.node "S001"
              (Demo.people [Scenario.semesterThree] [] [] [] []
                 [Demo.skillDoc "k0" "S002" accepted 50;
                  Demo.skillDoc "k1" "S001" pending 100]))
  = S (ac_count (@fetchStudentAcademics Demo.node "S001" Demo.store)).
Proof.
  destruct (@uploaded_record_reaches_student Demo.node Scenario.parseGpa
              (mkRequest (Some "Bearer tok-admin") None "" Body.empty)
              (Scenario.marks " 3") (Some (Scenario.pdf "2-sem3.pdf")) "g3" (Some 300)
              (Some Demo.store) (Some Demo.store)
              (Demo.people [Scenario.semesterThree] [] [] [] []
                 [Demo.skillDoc "k0" "S002" accepted 50;
                  Demo.skillDoc "k1" "S001" pending 100])
              [] ["2-sem3.pdf"] Scenario.semesterThree "2-sem3.pdf" eq_refl)
    as (st & [= <-] & Hcount & _).
  exact Hcount.
Defined.

(** X16.  The academics list route and the academics stream give the
    same payload for a student all of whose records have a location,
    as every record the upload route creates has.  (For a record
    without one the list route would put the text "undefined" behind
    the origin where the stream puts null.) *)
Theorem academics_list_and_stream_agree `{Runtime} (sid : string) (st : Store) :
  sid <> "" ->
  Forall (fun r => Academic.sid r = sid -> JS.truthy (Academic.url r) = true) (GPA st) ->
  getStudentAcademics sid (Some st) = inr (fetchStudentAcademics sid st).
Proof.
  intros Hsid Hurls. unfold getStudentAcademics, fetchStudentAcademics.
  destruct (String.eqb_spec sid ""); [done|]. f_equal.
  assert (Hmap :
    map (fun r => Academic.with_url
                    (Some ("http://localhost:" +:+ port +:+ JS.interpolate (Academic.url r))) r)
        (JS.sort by_semester (filter (fun r => Academic.sid r = sid) (GPA st)))
    = map (fun r => Academic.with_url (fullUrl (Academic.url r)) r)
          (JS.sort by_semester (filter (fun r => Academic.sid r = sid) (GPA st)))).
  { apply map_ext_in. intros r Hr.
    apply list_elem_of_In in Hr. rewrite sort_Permutation in Hr.
    apply list_elem_of_filter in Hr as [Hown Hr].
    rewrite Forall_forall in Hurls. specialize (Hurls r Hr Hown).
    destruct (Academic.url r) as [u|]; [|discriminate Hurls].
    simpl in Hurls |- *. by destruct (String.eqb u ""). }
  by rewrite Hmap.
Qed.

Lemma academics_list_and_stream_agree_witness :
  @getStudentAcademics Demo.node "S001" (Some Demo.twoSemesters)
  = inr (@fetchStudentAcademics Demo.node "S001" Demo.twoSemesters).
Proof.
  apply (@academics_list_and_stream_agree Demo.node "S001" Demo.twoSemesters).
  - discriminate.
  - repeat constructor.
Defined.

(** ** Sessions: what an open session writes *)

Section SessionTraces.
Context `{Runtime}.

Lemma run_cons (s : Session) (sig : Signal) (sigs : list Signal) :
  run s (sig :: sigs)
  = (fst (run (fst (step s sig)) sigs),
     (snd (step s sig) ++ snd (run (fst (step s sig)) sigs))%list).
Proof. cbn [run]. destruct (step s sig) as [s1 out1]. cbn [fst snd]. by destruct (run s1 sigs). Qed.

Lemma filter_writes_app (P : Chunk -> bool) (a b : list Effect) :
  length (List.filter P (writes (a ++ b)))
  = (length (List.filter P (writes a)) + length (List.filter P (writes b)))%nat.
Proof. by rewrite writes_app, List.filter_app, length_app. Qed.

Lemma open_run_counts (sc : Scope) (sigs : list Signal) :
  forallb keepsOpen sigs = true ->
  let r := run (mkSession sc true true false) sigs in
  fst r = mkSession sc true true false
  /\ length (List.filter is_snapshot (writes (snd r))) = length (List.filter answeredPoll sigs)
  /\ length (List.filter is_heartbeat (writes (snd r))) = length (List.filter heartbeatTick sigs)
  /\ length (List.filter is_errorEvent (writes (snd r))) = 0%nat.
Proof.
  cbv zeta. induction sigs as [|sig sigs IH]; [done|].
  cbn [forallb]. intros [Hsig Hsigs]%andb_true_iff.
  destruct (IH Hsigs) as (IHst & IHs & IHb & IHe).
  rewrite run_cons. cbn [fst snd].
  destruct sig as [[st|]| | |]; try discriminate Hsig;
    cbn [step pollInterval heartbeatInterval fst snd scope];
    rewrite !filter_writes_app, IHst, IHs, IHb, IHe; by repeat split.
Qed.

End SessionTraces.

(** X18.  The account of a session while it is open.  As long as
    neither the close listener nor the error listener has run, both
    timers stay registered and the session has written one chunk at
    open (the snapshot, or the error event when the initial query
    failed), one snapshot for every poll whose query succeeded, nothing
    for a poll that failed, and one heartbeat comment for every
    heartbeat tick. *)
Theorem open_session_writes_accounted `{Runtime} (sc : Scope) (db : Db) (sigs : list Signal) :
  forallb keepsOpen sigs = true ->
  let out := writes (snd (session sc db sigs)) in
  fst (session sc db sigs) = mkSession sc true true false
  /\ length (List.filter is_snapshot out)
     = (match db with Some _ => 1 | None => 0 end + length (List.filter answeredPoll sigs))%nat
  /\ length (List.filter is_heartbeat out) = length (List.filter heartbeatTick sigs)
  /\ length (List.filter is_errorEvent out) = match db with Some _ => 0 | None => 1 end%nat.
Proof.
  intros Hopen. cbv zeta.
  destruct (open_run_counts sc sigs Hopen) as (Hst & Hs & Hb & He).
  rewrite session_unfold, !filter_writes_app.
  change (fst (openStream sc db)) with (mkSession sc true true false).
  rewrite Hs, Hb, He. split; [|by destruct db].
  unfold session. cbn [openStream].
  destruct (run (mkSession sc true true false) sigs) as [s1 out1]. exact Hst.
Qed.

Lemma open_session_writes_accounted_witness :
  length (List.filter is_snapshot
            (writes (snd (@session Demo.node AdminPending (Some Demo.store)
                            [PollTick None; HeartbeatTick; PollTick (Some Demo.store)]))))
  = 2%nat.
Proof.
  exact (proj1 (proj2 (@open_session_writes_accounted Demo.node AdminPending (Some Demo.store)
                         [PollTick None; HeartbeatTick; PollTick (Some Demo.store)] eq_refl))).
Defined.

(** ** Who is let in *)

Section Principals.
Context `{Runtime}.

Lemma findById_Some {A} (id_of : A -> string) (id : option string) (l : list A) (x : A) :
  findById id_of id l = Some x -> x ∈ l /\ id = Some (id_of x).
Proof.
  destruct id as [i|]; [|done]. simpl. intros Hf.
  apply find_some in Hf as [Hin Heq]. apply String.eqb_eq in Heq as <-.
  split; [by apply list_elem_of_In|done].
Qed.

Lemma truthy_inv (t : option string) :
  JS.truthy t = true -> exists token, t = Some token /\ token <> "".
Proof.
  destruct t as [token|]; [|done]. simpl. intros Ht. exists token. split; [done|].
  intros ->. discriminate Ht.
Qed.

Lemma authenticateStudent_inv (req : Request) (db : Db) (student : Student.t) :
  authenticateStudent req db = inr student ->
  exists token decoded st,
    bearerToken req = Some token /\ token <> ""
    /\ jwt_verify token = Some decoded /\ db = Some st
    /\ student ∈ Students st /\ studentId decoded = Some (Student._id student).
Proof.
  unfold authenticateStudent. intros Ha.
  destruct (JS.truthy (bearerToken req)) eqn:Ht; [|discriminate Ha].
  apply truthy_inv in Ht as (token & Ht & Hne). rewrite Ht in Ha. simpl in Ha.
  destruct (jwt_verify token) as [decoded|] eqn:Hv; [|discriminate Ha].
  destruct db as [st|]; [|discriminate Ha].
  destruct (findById Student._id (studentId decoded) (Students st)) as [s|] eqn:Hf;
    [|discriminate Ha].
  injection Ha as ->. apply findById_Some in Hf as [Hin Hid].
  by exists token, decoded, st.
Qed.

Lemma authenticateAdmin_inv (req : Request) (db : Db) (faculty : Faculty.t) :
  authenticateAdmin req db = inr faculty ->
  exists token decoded st,
    bearerToken req = Some token /\ token <> ""
    /\ jwt_verify token = Some decoded /\ role decoded = Some "admin" /\ db = Some st
    /\ faculty ∈ Faculties st /\ facultyId decoded = Some (Faculty._id faculty).
Proof.
  unfold authenticateAdmin. intros Ha.
  destruct (JS.truthy (bearerToken req)) eqn:Ht; [|discriminate Ha].
  apply truthy_inv in Ht as (token & Ht & Hne). rewrite Ht in Ha. simpl in Ha.
  destruct (jwt_verify token) as [decoded|] eqn:Hv; [|discriminate Ha].
  destruct (bool_decide (role decoded = Some "admin")) eqn:Hr; [|discriminate Ha].
  apply bool_decide_eq_true_1 in Hr. simpl in Ha.
  destruct db as [st|]; [|discriminate Ha].
  destruct (findById Faculty._id (facultyId decoded) (Faculties st)) as [x|] eqn:Hf;
    [|discriminate Ha].
  injection Ha as ->. apply findById_Some in Hf as [Hin Hid].
  by exists token, decoded, st.
Qed.

Lemma authenticateStudent_no_student (req : Request) (db : Db) (token : string) (c : Claims) :
  bearerToken req = Some token -> token <> "" -> jwt_verify token = Some c ->
  studentId c = None ->
  exists r, authenticateStudent req db = inl r /\ statusCode r = 401%nat.
Proof.
  intros Ht Hne Hv Hid. unfold authenticateStudent. rewrite Ht. simpl.
  destruct (String.eqb_spec token ""); [done|]. simpl. rewrite Hv, Hid.
  destruct db; by eexists.
Qed.

End Principals.

(** X19.  Whoever passes a middleware is a row of the store: a request
    is let through as a student (as an administrator) only if it
    carries a non-empty token that verifies, the store is reachable,
    and the store holds the student (the faculty member) whose
    identifier the token names; for an administrator the token's role
    is "admin" as well. *)
Theorem authenticated_principal_is_stored `{Runtime} (req : Request) (db : Db) :
  (forall student, authenticateStudent req db = inr student ->
     exists token decoded st,
       bearerToken req = Some token /\ token <> ""
       /\ jwt_verify token = Some decoded /\ db = Some st
       /\ student ∈ Students st /\ studentId decoded = Some (Student._id student))
  /\ (forall faculty, authenticateAdmin req db = inr faculty ->
        exists token decoded st,
          bearerToken req = Some token /\ token <> ""
          /\ jwt_verify token = Some decoded /\ role decoded = Some "admin" /\ db = Some st
          /\ faculty ∈ Faculties st /\ facultyId decoded = Some (Faculty._id faculty)).
Proof.
  split; intros x Ha; [by apply authenticateStudent_inv | by apply authenticateAdmin_inv].
Qed.

Lemma authenticated_principal_is_stored_witness :
  exists token decoded st,
    @bearerToken Scenario.studentRequest = Some token /\ token <> ""
    /\ @jwt_verify Demo.node token = Some decoded /\ Some Demo.store = Some st
    /\ Demo.studentA ∈ Students st /\ studentId decoded = Some (Student._id Demo.studentA).
Proof.
  exact (proj1 (@authenticated_principal_is_stored Demo.node Scenario.studentRequest
                  (Some Demo.store)) Demo.studentA eq_refl).
Defined.

(** X20.  A token is read from the Authorization header, without its
    ['Bearer '] prefix, or from the [token] query parameter.  A
    non-empty token reaches the middlewares the same by either way, and
    the header wins when both are there: even the bare word [Bearer],
    which is how a header that ends after the prefix arrives, is taken
    for the token and shadows the parameter. *)
Theorem token_by_header_or_query `{Runtime} (token : string) (q : option string)
    (p : string) (b : Body.t) (db : Db) :
  token <> "" ->
  bearerToken (mkRequest (Some ("Bearer " +:+ token)) q p b) = Some token
  /\ bearerToken (mkRequest None (Some token) p b) = Some token
  /\ bearerToken (mkRequest (Some "Bearer") q p b) = Some "Bearer"
  /\ authenticateStudent (mkRequest (Some ("Bearer " +:+ token)) q p b) db
     = authenticateStudent (mkRequest None (Some token) p b) db
  /\ authenticateAdmin (mkRequest (Some ("Bearer " +:+ token)) q p b) db
     = authenticateAdmin (mkRequest None (Some token) p b) db.
Proof.
  intros Hne.
  assert (Hh : bearerToken (mkRequest (Some ("Bearer " +:+ token)) q p b) = Some token).
  { unfold bearerToken. cbn [header_Authorization query_token fmap option_fmap option_map].
    rewrite replace_Bearer, truthy_Some by done. reflexivity. }
  assert (Hq : bearerToken (mkRequest None (Some token) p b) = Some token)
    by (by apply bearerToken_query).
  assert (He : bearerToken (mkRequest (Some "Bearer") q p b) = Some "Bearer")
    by reflexivity.
  repeat split; try done.
  - unfold authenticateStudent. by rewrite Hh, Hq.
  - unfold authenticateAdmin. by rewrite Hh, Hq.
Qed.

Lemma token_by_header_or_query_witness :
  @authenticateStudent Demo.node (mkRequest (Some "Bearer tok-A") (Some "tok-B") "" Body.empty)
    (Some Demo.store)
  = @authenticateStudent Demo.node (mkRequest None (Some "tok-A") "" Body.empty)
      (Some Demo.store).
Proof.
  refine (proj1 (proj2 (proj2 (proj2
            (@token_by_header_or_query Demo.node "tok-A" (Some "tok-B") "" Body.empty
               (Some Demo.store) _))))).
  discriminate.
Defined.

(** X21.  A student's token opens no administrator route.  With a token
    whose verified payload is the one the student routes sign, both
    review routes and the academics upload answer 403 and leave the
    store, and the upload directory, as they were. *)
Theorem student_token_opens_no_admin_route `{Runtime} (parseFloat : string -> option Q)
    (now : option Z) (req : Request) (authDb db : Db) (token : string) (s : Student.t)
    (b : Marks.t) (f : option Upload.t) (newId : string) (stamp : option Z)
    (disk : list string) :
  bearerToken req = Some token -> token <> "" ->
  jwt_verify token = Some (studentClaims s) ->
  let forbidden := Json 403 [("error", "Access denied. Admin privileges required.")] in
  postSkillsAccept now req authDb db = (forbidden, db)
  /\ postSkillsReject now req authDb db = (forbidden, db)
  /\ postAcademics parseFloat req b f newId stamp authDb db disk
     = (UploadRefused forbidden, db, disk).
Proof.
  intros Ht Hne Hv forbidden.
  assert (Ha : authenticateAdmin req authDb = inl forbidden)
    by (by apply (authenticateAdmin_not_admin req authDb token (studentClaims s))).
  unfold postSkillsAccept, postSkillsReject, postAcademics. by rewrite Ha.
Qed.

Lemma student_token_opens_no_admin_route_witness :
  @postSkillsAccept Demo.node (Some 200) (postRequest "tok-A" (Demo.reviewBody None))
    (Some Demo.store) (Some Demo.store)
  = (Json 403 [("error", "Access denied. Admin privileges required.")], Some Demo.store).
Proof.
  refine (proj1 (@student_token_opens_no_admin_route Demo.node Scenario.parseGpa (Some 200)
                   (postRequest "tok-A" (Demo.reviewBody None)) (Some Demo.store)
                   (Some Demo.store) "tok-A" Demo.studentA
                   (Scenario.marks "3") None "g3" None [] _ _ _)).
  - reflexivity.
  - discriminate.
  - reflexivity.
Defined.

(** X22.  An administrator's token opens no student route.  Its payload
    names no student, so the student middleware answers 401: the list
    routes return that refusal, a submission is refused with the store
    and the upload directory untouched, and none of the three student
    streams opens. *)
Theorem admin_token_opens_no_student_route `{Runtime}
    (req : Request) (db db' : Db) (token : string) (fac : Faculty.t)
    (r : ListRoute) (b : Form.t) (f : option Upload.t) (newId : string) (stamp : option Z)
    (disk : list string) :
  bearerToken req = Some token -> token <> "" ->
  jwt_verify token = Some (adminClaims fac) ->
  exists refusal,
    statusCode refusal = 401%nat
    /\ getStudentDocuments r req db db' = inl refusal
    /\ postSubmitDocument req b f newId stamp db db' disk = (SubmitRefused refusal, db', disk)
    /\ studentAcademicsStream req db db' = Refused refusal
    /\ studentSkillsStream req db db' = Refused refusal
    /\ studentCurricularStream req db db' = Refused refusal.
Proof.
  intros Ht Hne Hv.
  destruct (authenticateStudent_no_student req db token (adminClaims fac) Ht Hne Hv eq_refl)
    as (refusal & Ha & Hcode).
  exists refusal. unfold getStudentDocuments, postSubmitDocument, studentAcademicsStream,
    studentSkillsStream, studentCurricularStream. by rewrite Ha.
Qed.

Lemma admin_token_opens_no_student_route_witness :
  exists refusal,
    statusCode refusal = 401%nat
    /\ @studentSkillsStream Demo.node (mkRequest None (Some "tok-admin") "" Body.empty)
         (Some Demo.store) (Some Demo.store) = Refused refusal.
Proof.
  destruct (@admin_token_opens_no_student_route Demo.node
              (mkRequest None (Some "tok-admin") "" Body.empty) (Some Demo.store)
              (Some Demo.store) "tok-admin" Demo.teacher SkillsList Scenario.skillForm None
              "k9" None [] eq_refl ltac:(discriminate) eq_refl)
    as (refusal & Hcode & _ & _ & _ & Hs & _).
  by exists refusal.
Defined.

(** ** The student list routes *)

Section OwnLists.
Context `{Runtime}.

Lemma absolute_sid (d : Doc.t) : Doc.sid (absolute d) = Doc.sid d.
Proof. by destruct d. Qed.

Lemma ownDocuments_owned (sid : string) (l : list Doc.t) :
  Forall (fun d => Doc.sid d = sid) (ownDocuments sid l).
Proof.
  apply Forall_forall. intros d Hd. rewrite ownDocuments_Permutation in Hd.
  apply list_elem_of_In, in_map_iff in Hd as (d0 & <- & Hd0).
  apply list_elem_of_In, list_elem_of_filter in Hd0 as [Hown _].
  by rewrite absolute_sid.
Qed.

Lemma getStudentDocuments_inv (r : ListRoute) (req : Request) (authDb db : Db)
    (snap : DocsSnapshot) :
  getStudentDocuments r req authDb db = inr snap ->
  exists student st,
    authenticateStudent req authDb = inr student /\ db = Some st
    /\ docs_documents snap = ownDocuments (Student.sid student) (documents (listModel r) st)
    /\ docs_totalCount snap = length (docs_documents snap).
Proof.
  unfold getStudentDocuments. intros Hg.
  destruct (authenticateStudent req authDb) as [?|student]; [discriminate Hg|].
  destruct db as [st|]; [|discriminate Hg].
  injection Hg as <-. by exists student, st.
Qed.

End OwnLists.

(** X23.  A student list route that answers with a list answers with
    the caller's own documents and nothing else: the list holds exactly
    the documents of the route's collection whose owner is the student
    of the token, each with its location made absolute, newest first,
    and the count is the length of the list. *)
Theorem list_route_returns_own_documents `{Runtime} (r : ListRoute) (req : Request)
    (authDb db : Db) (snap : DocsSnapshot) :
  getStudentDocuments r req authDb db = inr snap ->
  exists student st,
    authenticateStudent req authDb = inr student /\ db = Some st
    /\ docs_documents snap
       ≡ₚ map absolute (filter (fun d => Doc.sid d = Student.sid student)
                               (documents (listModel r) st))
    /\ Forall (fun d => Doc.sid d = Student.sid student) (docs_documents snap)
    /\ StronglySorted (fun a b => created b <= created a) (docs_documents snap)
    /\ docs_totalCount snap = length (docs_documents snap).
Proof.
  intros Hg. apply getStudentDocuments_inv in Hg as (student & st & Ha & -> & Hdocs & Hcount).
  exists student, st. rewrite Hcount, Hdocs. repeat split; try done.
  - apply ownDocuments_Permutation.
  - apply ownDocuments_owned.
  - apply newest_first_sorted.
Qed.

Lemma list_route_returns_own_documents_witness :
  exists student st,
    @authenticateStudent Demo.node Scenario.studentRequest (Some Demo.store) = inr student
    /\ Some Demo.store = Some st
    /\ [absolute (H := Demo.node) (Demo.skillDoc "k1" "S001" pending 100)]
       ≡ₚ map (absolute (H := Demo.node))
              (filter (fun d => Doc.sid d = Student.sid student) (documents MSkill st)).
Proof.
  destruct (@list_route_returns_own_documents Demo.node SkillsList Scenario.studentRequest
              (Some Demo.store) (Some Demo.store)
              (mkDocs "Skills documents retrieved successfully" 1
                 [absolute (H := Demo.node) (Demo.skillDoc "k1" "S001" pending 100)])
              eq_refl)
    as (student & st & Ha & Hst & Hp & _).
  by exists student, st.
Defined.

(** X24.  The skills and curricular list routes answer with the very
    payload the matching stream pushes first: for an authenticated
    student and a reachable store, the list route returns the snapshot
    of the student's documents, and the stream opens and writes that
    snapshot as its first and only chunk. *)
Theorem list_routes_and_streams_agree `{Runtime} (req : Request) (authDb : Db) (st : Store)
    (student : Student.t) :
  authenticateStudent req authDb = inr student ->
  let sid := Student.sid student in
  getStudentDocuments SkillsList req authDb (Some st) = inr (fetchStudentSkills sid st)
  /\ studentSkillsStream req authDb (Some st)
     = Opened (mkSession (StudentSkills sid) true true false)
              [Write (Event "skills-update" (DocsPayload (fetchStudentSkills sid st)))]
  /\ getStudentDocuments CurricularList req authDb (Some st)
     = inr (fetchStudentCurricular sid st)
  /\ studentCurricularStream req authDb (Some st)
     = Opened (mkSession (StudentCurricular sid) true true false)
              [Write (Event "curricular-update" (DocsPayload (fetchStudentCurricular sid st)))].
Proof.
  intros Ha sid.
  unfold getStudentDocuments, studentSkillsStream, studentCurricularStream.
  rewrite Ha. repeat split.
Qed.

Lemma list_routes_and_streams_agree_witness :
  @getStudentDocuments Demo.node SkillsList Scenario.studentRequest
    (Some Demo.store) (Some Demo.store)
  = inr (@fetchStudentSkills Demo.node "S001" Demo.store).
Proof.
  exact (proj1 (@list_routes_and_streams_agree Demo.node Scenario.studentRequest
                  (Some Demo.store) Demo.store Demo.studentA eq_refl)).
Defined.

(** ** The consumers over a run of events *)

Section QueueGrowth.
Context `{Runtime}.

Lemma queue_after_submission (req : Request) (b : Form.t) (f : option Upload.t)
    (newId : string) (stamp : option Z) (authDb db : Db) (st' : Store)
    (disk disk' : list string) (msg ty : string) (doc : Doc.t) (fn : option string) :
  postSubmitDocument req b f newId stamp authDb db disk
    = (Submitted msg ty doc fn, Some st', disk') ->
  exists st,
    db = Some st
    /\ pend_totalCount (fetchPendingDocuments st')
       = ((if String.eqb ty "extracurriculam" then 0 else 1)
          + pend_totalCount (fetchPendingDocuments st))%nat.
Proof.
  intros Hs.
  apply postSubmitDocument_inv in Hs
    as (student & st & m & _ & -> & _ & Hm & _ & Hpend & _ & _ & _ & _ & [= ->]).
  destruct (documents_after_append m st doc ty Hm) as [_ Hcount].
  exists st. split; [done|]. rewrite Hcount.
  destruct (String.eqb_spec ty "extracurriculam") as [->|Hne].
  - injection Hm as <-. reflexivity.
  - pose proof (assoc_schemaMap_key ty m Hm Hne) as Hm'.
    destruct m; try done; by rewrite (filter_cons_True is_pending doc []).
Qed.

End QueueGrowth.

(** X25.  From a submission to the bell of the requests page.  A page
    that has shown the queue as it was before a student's submission
    and then receives the queue as it is after it raises exactly one
    notice, "1 new request", when the queue was not empty before and the
    submission is not an extracurricular one.  A first document in an
    empty queue, and any extracurricular submission, raise no notice. *)
Theorem new_submission_is_announced `{Runtime}
    (req : Request) (b : Form.t) (f : option Upload.t) (newId : string) (stamp : option Z)
    (authDb db : Db) (st' : Store) (disk disk' : list string)
    (msg ty : string) (doc : Doc.t) (fn : option string) (p : Page.t) :
  postSubmitDocument req b f newId stamp authDb db disk
    = (Submitted msg ty doc fn, Some st', disk') ->
  exists st,
    db = Some st
    /\ let before := pageOnPending (Some (fetchPendingDocuments st)) p in
       let after := pageOnPending (Some (fetchPendingDocuments st')) before in
       Page.toasts after
       = if String.eqb ty "extracurriculam"
            || Nat.eqb (pend_totalCount (fetchPendingDocuments st)) 0
         then Page.toasts before
         else (Page.toasts before
               ++ [mkToast "🔔 New Pending Requests" "1 new request"])%list.
Proof.
  intros Hs. apply queue_after_submission in Hs as (st & -> & Hcount).
  exists st. split; [done|]. cbv zeta.
  unfold pageOnPending at 1. cbn [Page.previousCount Page.toasts].
  rewrite Hcount.
  set (before := pageOnPending (Some (fetchPendingDocuments st)) p).
  assert (Hprev : Page.previousCount before = pend_totalCount (fetchPendingDocuments st))
    by reflexivity.
  rewrite Hprev.
  generalize (pend_totalCount (fetchPendingDocuments st)) as n. intros n.
  destruct (String.eqb ty "extracurriculam"); cbn [orb Nat.add].
  - rewrite Nat.eqb_refl. cbn [negb andb]. by rewrite andb_false_r.
  - destruct n as [|n]; [reflexivity|].
    replace (Nat.ltb 0 (S n)) with true by (symmetry; apply Nat.ltb_lt; lia).
    replace (Nat.eqb (S (S n)) (S n)) with false by (symmetry; apply Nat.eqb_neq; lia).
    replace (Nat.ltb (S n) (S (S n))) with true by (symmetry; apply Nat.ltb_lt; lia).
    replace (S (S n) - S n)%nat with 1%nat by lia.
    reflexivity.
Qed.

Lemma new_submission_is_announced_witness :
  Page.toasts
    (pageOnPending (Some (@fetchPendingDocuments Demo.node Scenario.withCertificate))
       (pageOnPending (Some (@fetchPendingDocuments Demo.node Demo.store)) Page.initial))
  = [mkToast "🔔 New Pending Requests" "1 new request"].
Proof.
  destruct (@new_submission_is_announced Demo.node Scenario.studentRequest
              Scenario.skillForm (Some (Scenario.pdf "1-cert.pdf")) "k9" (Some 300)
              (Some Demo.store) (Some Demo.store) Scenario.withCertificate
              [] ["1-cert.pdf"] "skill document submitted successfully" "skill"
              Scenario.certificate (Some "1-cert.pdf") Page.initial eq_refl)
    as (st & [= <-] & Htoasts).
  exact Htoasts.
Defined.

(** X26.  What a stream hook shows after a run of data events.  The
    list is the last payload that parsed (the list it had, if none
    did): a payload that does not parse never clears it.  The update
    handler never clears the error either, so after one payload that
    failed to parse the parse error stays up however many good ones
    follow.  The connection is left alone, and the hook counts as
    connected once one payload has parsed. *)
Theorem hook_parse_failure_is_sticky {A : Type} (h : Hook)
    (events : list (option (list A))) (s : HookState.t A) :
  let s' := hookUpdates h events s in
  HookState.items s' = default (HookState.items s) (last (omap id events))
  /\ HookState.error s'
     = (if bool_decide (Exists (fun e => e = None) events)
        then Some (parseFailure h) else HookState.error s)
  /\ HookState.eventSource s' = HookState.eventSource s
  /\ HookState.isConnected s'
     = (HookState.isConnected s || bool_decide (Exists (fun e => e <> None) events)).
Proof.
  cbv zeta. unfold hookUpdates.
  induction events as [|e events IH] using rev_ind.
  - cbn. by rewrite orb_false_r.
  - destruct IH as (Hitems & Herr & Hsrc & Hcon).
    rewrite foldl_snoc, omap_app.
    destruct e as [docs|]; cbn [onUpdate omap id app HookState.items HookState.error
                                HookState.eventSource HookState.isConnected].
    + simpl. rewrite last_snoc. cbn [default from_option id]. repeat split; try done.
      * rewrite Herr. apply (f_equal (fun b : bool => if b then _ else _)).
        apply bool_decide_ext. rewrite Exists_app, Exists_cons, Exists_nil.
        split; [by left | intros [?|[?|[]]]; [assumption | done]].
      * symmetry. rewrite bool_decide_eq_true_2; [apply orb_true_r|].
        apply Exists_app. right. by constructor.
    + simpl. rewrite app_nil_r. repeat split; try done.
      * rewrite bool_decide_eq_true_2; [done|]. apply Exists_app. right. by constructor.
      * rewrite Hcon. f_equal.
        apply bool_decide_ext. rewrite Exists_app, Exists_cons, Exists_nil.
        split; [by left | intros [?|[?|[]]]; [assumption | done]].
Qed.
